(** * dspy-kg: knowledge-graph extraction scripts, shallow embedding

    The repository drives a language model, an RDF parser and a page
    scraper.  The three external services are modelled as deterministic
    oracles (functions handed to the embedded code); everything the Python
    code itself decides -- loops, branching, string handling, the order of
    calls and of file writes -- is translated definition by definition.

    Part I holds the definitions, one module per source file; Part II holds
    the theorems. *)

From Stdlib Require Import List String Ascii Bool Arith Lia Permutation.
Import ListNotations.
Open Scope string_scope.

(* ================================================================== *)
(** * Part I -- definitions                                            *)
(* ================================================================== *)

(** ** Python string primitives

    A Python [str] is modelled by [string]; a character is a code point of
    the 8-bit range.  Beyond that range [str.lower] can turn a character
    outside [a-zA-Z0-9] into one inside (the Kelvin sign becomes [k]), so
    what depends on the lower-cased text is stated of [lower s], never of
    [s]. *)
Module PyStr.

Definition code (c : ascii) : nat := nat_of_ascii c.

Definition in_range (lo hi : nat) (c : ascii) : bool :=
  Nat.leb lo (code c) && Nat.leb (code c) hi.

Definition is_upper_ascii (c : ascii) : bool := in_range 65 90 c.
Definition is_lower_ascii (c : ascii) : bool := in_range 97 122 c.
Definition is_digit (c : ascii) : bool := in_range 48 57 c.

(** The character class [a-zA-Z0-9]. *)
Definition is_alnum (c : ascii) : bool :=
  is_lower_ascii c || is_upper_ascii c || is_digit c.

(** [str.isspace] on the 8-bit range: TAB..CR, FS..US, space, NEL, NBSP. *)
Definition is_space (c : ascii) : bool :=
  in_range 9 13 c || in_range 28 32 c
  || Nat.eqb (code c) 133 || Nat.eqb (code c) 160.

(** [str.lower] on one code point of the 8-bit range: A-Z and the
    upper-case Latin-1 letters (all of 0xC0..0xDE but the multiplication
    sign 0xD7) move up by 32. *)
Definition lower_char (c : ascii) : ascii :=
  if is_upper_ascii c
     || (in_range 192 222 c && negb (Nat.eqb (code c) 215))
  then ascii_of_nat (code c + 32)
  else c.

Fixpoint lower (s : string) : string :=
  match s with
  | EmptyString => EmptyString
  | String c s' => String (lower_char c) (lower s')
  end.

(** [s.lstrip(...)], [s.rstrip(...)], [s.strip(...)] for the set of
    characters recognised by [p]. *)
Fixpoint lstrip (p : ascii -> bool) (s : string) : string :=
  match s with
  | EmptyString => EmptyString
  | String c s' => if p c then lstrip p s' else s
  end.

Fixpoint rstrip (p : ascii -> bool) (s : string) : string :=
  match s with
  | EmptyString => EmptyString
  | String c s' =>
      match rstrip p s' with
      | EmptyString => if p c then EmptyString else String c EmptyString
      | r => String c r
      end
  end.

Definition strip (p : ascii -> bool) (s : string) : string :=
  lstrip p (rstrip p s).

(** [c in chars] for a one-character needle. *)
Fixpoint mem_char (c : ascii) (s : string) : bool :=
  match s with
  | EmptyString => false
  | String d s' => Ascii.eqb c d || mem_char c s'
  end.

(** [s.startswith(pre)]. *)
Definition startswith (pre s : string) : bool := String.prefix pre s.

(** [s.split(sep)] for a one-character separator: never empty, the pieces
    hold no separator. *)
Fixpoint split (sep : ascii) (s : string) : list string :=
  match s with
  | EmptyString => [EmptyString]
  | String c s' =>
      if Ascii.eqb c sep then EmptyString :: split sep s'
      else match split sep s' with
           | [] => [String c EmptyString]
           | l :: ls => String c l :: ls
           end
  end.

(** [s.replace(old, new)]: left to right, non-overlapping.  [old] is not
    empty at any call site of the repository; for an empty [old] the
    string is returned unchanged here. *)
Fixpoint drop (n : nat) (s : string) : string :=
  match n, s with
  | O, _ => s
  | S n', String _ s' => drop n' s'
  | S _, EmptyString => EmptyString
  end.

Fixpoint replace_from (fuel : nat) (old new s : string) : string :=
  match fuel with
  | O => s
  | S fuel' =>
      match s with
      | EmptyString => EmptyString
      | String c s' =>
          if String.prefix old s
          then new ++ replace_from fuel' old new (drop (String.length old) s)
          else String c (replace_from fuel' old new s')
      end
  end.

Definition replace (old new s : string) : string :=
  match old with
  | EmptyString => s
  | _ => replace_from (String.length s) old new s
  end.

(** [s[:n]]. *)
Definition take (n : nat) (s : string) : string := String.substring 0 n s.

(** [sep.join(parts)]. *)
Definition join (sep : string) (parts : list string) : string :=
  String.concat sep parts.

(** [re.sub] for a pattern [[cls]{m,}] (a character class repeated at
    least [m >= 1] times, greedy): every maximal run of class characters
    that is at least [m] long is replaced by [repl], shorter runs are
    kept.  [run] is the run read so far. *)
Definition flush_run (m : nat) (repl run : string) : string :=
  if Nat.leb m (String.length run) then repl else run.

Fixpoint re_sub_runs_from (cls : ascii -> bool) (m : nat) (repl : string)
    (run s : string) : string :=
  match s with
  | EmptyString => flush_run m repl run
  | String c s' =>
      if cls c
      then re_sub_runs_from cls m repl (run ++ String c EmptyString) s'
      else flush_run m repl run
             ++ String c (re_sub_runs_from cls m repl EmptyString s')
  end.

Definition re_sub_runs (cls : ascii -> bool) (m : nat) (repl s : string)
  : string :=
  re_sub_runs_from cls m repl EmptyString s.

(** First and last character tests, used to state results. *)
Definition starts_in (p : ascii -> bool) (s : string) : bool :=
  match s with
  | EmptyString => false
  | String c _ => p c
  end.

Fixpoint ends_in (p : ascii -> bool) (s : string) : bool :=
  match s with
  | EmptyString => false
  | String c EmptyString => p c
  | String _ s' => ends_in p s'
  end.

(** No two neighbouring characters of the class [p]. *)
Fixpoint no_double (p : ascii -> bool) (s : string) : bool :=
  match s with
  | EmptyString => true
  | String c s' => negb (p c && starts_in p s') && no_double p s'
  end.

(** The substitution [[cls]+ -> "_"] written with a flag instead of the
    stored run: [inrun] tells that the character before belonged to a run
    whose underscore is already out.  Used in proofs only. *)
Fixpoint collapse (cls : ascii -> bool) (inrun : bool) (s : string) : string :=
  match s with
  | EmptyString => EmptyString
  | String c s' =>
      if cls c
      then (if inrun then collapse cls true s'
            else String "_"%char (collapse cls true s'))
      else String c (collapse cls false s')
  end.

(** Every character of the string is in the class [p]. *)
Fixpoint all_chars (p : ascii -> bool) (s : string) : bool :=
  match s with
  | EmptyString => true
  | String c s' => p c && all_chars p s'
  end.

End PyStr.

(** ** kg-openai.py *)
Module KgOpenai.
Import PyStr.

Definition underscore : ascii := "_"%char.
Definition is_underscore (c : ascii) : bool := Ascii.eqb c underscore.

(** The character class [[^a-zA-Z0-9]]. *)
Definition not_alnum (c : ascii) : bool := negb (is_alnum c).

(** [_slug_rx = re.compile(r"[^a-zA-Z0-9]+")] and its [sub] method. *)
Definition _slug_rx_sub (repl s : string) : string :=
  re_sub_runs not_alnum 1 repl s.

(** [[
def slugify(value):
    value = _slug_rx.sub("_", value.strip().lower())
    return re.sub(r"_{2,}", "_", value).strip("_")
]] *)
Definition slugify (value : string) : string :=
  let value := _slug_rx_sub "_" (lower (strip is_space value)) in
  strip is_underscore (re_sub_runs is_underscore 2 "_" value).

(** [class Triple(Structured)] *)
Record Triple := mkTriple {
  subject : string;
  predicate : string;
  object : string
}.

(** rdflib terms and statements as far as [forward] builds them. *)
Inductive Node :=
| URIRef (iri : string)
| Literal (lexical : string).

Definition Statement : Type := Node * Node * Node.

(** The three nodes built in the body of the [for t in triples] loop. *)
Definition s_uri (base : string) (t : Triple) : Node :=
  URIRef (base ++ slugify (subject t)).

Definition p_uri (base : string) (t : Triple) : Node :=
  URIRef (base ++ slugify (predicate t)).

(** [Literal(t.object) if " " in t.object else URIRef(... slugify(t.object))] *)
Definition o_node (base : string) (t : Triple) : Node :=
  if mem_char " "%char (object t)
  then Literal (object t)
  else URIRef (base ++ slugify (object t)).

(** The body of the loop: the two [g.add] calls. *)
Definition triple_statements (base : string) (theme_uri relates_to : Node)
    (t : Triple) : list Statement :=
  [ (s_uri base t, p_uri base t, o_node base t);
    (theme_uri, relates_to, s_uri base t) ].

(** [KnowledgeGraphProgram.forward] up to serialisation: the statements
    added to the graph, in the order of the [g.add] calls.  [extractor] is
    the triple-extraction call. *)
Definition forward_statements (extractor : string -> string -> list Triple)
    (base theme text : string) : list Statement :=
  let triples := extractor theme text in
  let relates_to := URIRef (base ++ "relatesTo") in
  let theme_uri := URIRef (base ++ slugify theme) in
  (theme_uri, URIRef "http://purl.org/dc/terms/title", Literal theme)
    :: flat_map (triple_statements base theme_uri relates_to) triples.

Definition is_literal (n : Node) : bool :=
  match n with Literal _ => true | URIRef _ => false end.

(** "Contains whitespace", in the sense of [str.isspace]. *)
Fixpoint has_whitespace (s : string) : bool :=
  match s with
  | EmptyString => false
  | String c s' => is_space c || has_whitespace s'
  end.

(** The words of the specification: the maximal runs of [a-zA-Z0-9]
    characters of a string, in order.  [cur] is the run read so far. *)
Definition close_run (cur : string) : list string :=
  match cur with EmptyString => [] | _ => [cur] end.

Fixpoint alnum_runs_from (cur s : string) : list string :=
  match s with
  | EmptyString => close_run cur
  | String c s' =>
      if is_alnum c then alnum_runs_from (cur ++ String c EmptyString) s'
      else close_run cur ++ alnum_runs_from EmptyString s'
  end.

Definition alnum_runs (s : string) : list string :=
  alnum_runs_from EmptyString s.

(** The slug as the specification words it: lower-case the text, keep its
    maximal alphanumeric runs and put one underscore where a run of other
    characters separated them. *)
Definition spec_slugify (value : string) : string :=
  join "_" (alnum_runs (lower value)).

(** The character class [a-z0-9]. *)
Definition lower_alnum (c : ascii) : bool := is_lower_ascii c || is_digit c.

(** A non-empty run of [a-z0-9] characters. *)
Definition good_run (r : string) : Prop :=
  r <> "" /\ all_chars lower_alnum r = true.

(** A character a slug is made of: [a-z], [0-9] or the underscore. *)
Definition slug_char (c : ascii) : bool :=
  is_lower_ascii c || is_digit c || is_underscore c.

(** A well-formed slug: slug characters only, no underscore at either end
    and no two underscores in a row. *)
Definition is_slug (s : string) : bool :=
  all_chars slug_char s
  && no_double is_underscore s
  && negb (starts_in is_underscore s)
  && negb (ends_in is_underscore s).

(** Some character of the string is in [a-zA-Z0-9]. *)
Fixpoint has_alnum (s : string) : bool :=
  match s with
  | EmptyString => false
  | String c s' => is_alnum c || has_alnum s'
  end.

Definition statement_subject (st : Statement) : Node := fst (fst st).
Definition statement_predicate (st : Statement) : Node := snd (fst st).
Definition statement_object (st : Statement) : Node := snd st.

End KgOpenai.


(** ** The scraping client

    What [firecrawl_app.scrape_url] can hand back, as far as the two
    crawl loops look at it. *)
Module Firecrawl.

(** A metadata mapping of the scraping API. *)
Definition Metadata : Type := list (string * string).

(** The value found under a metadata key or attribute: [None] or a dict. *)
Inductive PyMeta :=
| MetaNone
| MetaDict (d : Metadata).

(** Truth value of such an entry: a non-empty dict. *)
Definition meta_truthy (m : PyMeta) : bool :=
  match m with
  | MetaDict (_ :: _) => true
  | _ => false
  end.

(** Truth value of a text entry ([None] stands for an absent key or a
    [None] value): a non-empty string. *)
Definition text_truthy (t : option string) : bool :=
  match t with
  | Some (String _ _) => true
  | _ => false
  end.

(** The ['data'] entry of a dict result: absent, or a dict of its own with
    an optional ['markdown'] text and, if the key is there, a ['metadata']
    value. *)
Inductive DataField :=
| DataAbsent
| DataDict (markdown : option string) (metadata : option PyMeta).

(** The keys read from a dict result; [rd_metadata] is what
    [result.get('metadata')] returns. *)
Record ResponseDict := mkResponseDict {
  rd_markdown : option string;
  rd_content : option string;
  rd_data : DataField;
  rd_metadata : PyMeta
}.

Inductive ScrapeResult :=
| EmptyResult
    (** a false value: [None], an empty dict *)
| ResponseObject (markdown : option string) (metadata : option PyMeta)
    (** an object with a [markdown] attribute and, if [Some], a [metadata]
        attribute *)
| DictResult (d : ResponseDict)
    (** a non-empty dict *)
| UnexpectedResult (has_dict : bool)
    (** any other true value; [has_dict] tells whether it has [__dict__] *)
.

(** One call of the client: it raises ([type(e).__name__], [str(e)]) or
    returns. *)
Inductive ScrapeOutcome :=
| Raised (name msg : string)
| Returned (r : ScrapeResult).

End Firecrawl.

(** ** landscape.py *)
Module Landscape.
Import PyStr Firecrawl.

Definition LF : string := String "010"%char "".

(** A page dict.  Every reader of the ['metadata'] key goes through
    [page.get('metadata', {})], so a page without the key is the page with
    [MetaDict []]. *)
Record Page := mkPage {
  url : string;
  text : string;
  metadata : PyMeta
}.

(** *** Model calls

    The three [dspy.ChainOfThought] predictors are oracles; the calls made
    are recorded in the order in which they are made. *)
Inductive LMCall :=
| ExtractCall (domain text url : string)
| SchemaCall (domain sample_pages : string)
| MergeCall (canonical_rdf new_page_rdf source_url domain : string).

Record Models := mkModels {
  extractor : string -> string -> string -> string;
  schema_inferrer : string -> string -> string;
  merger : string -> string -> string -> string -> string
}.

(** A computation that returns a value and the calls it made. *)
Definition LM (A : Type) : Type := A * list LMCall.

Definition ret {A : Type} (a : A) : LM A := (a, []).

Definition bind {A B : Type} (m : LM A) (k : A -> LM B) : LM B :=
  let (b, made) := k (fst m) in (b, (snd m ++ made)%list).

Notation "x <- m ;; k" := (bind m (fun x => k))
  (at level 61, m at next level, right associativity).

Definition value {A : Type} (m : LM A) : A := fst m.
Definition calls {A : Type} (m : LM A) : list LMCall := snd m.

Section Builder.

Variable lm : Models.
(** [f"{metadata}"]: the text Python prints for a metadata value. *)
Variable repr : PyMeta -> string.

Definition call_extractor (domain text url : string) : LM string :=
  (extractor lm domain text url, [ExtractCall domain text url]).

Definition call_schema_inferrer (domain sample_pages : string) : LM string :=
  (schema_inferrer lm domain sample_pages, [SchemaCall domain sample_pages]).

Definition call_merger (canonical_rdf new_page_rdf source_url domain : string)
  : LM string :=
  (merger lm canonical_rdf new_page_rdf source_url domain,
   [MergeCall canonical_rdf new_page_rdf source_url domain]).

(** [IncrementalLandscapeBuilder._extract_page_rdf] *)
Definition _extract_page_rdf (domain text url : string) (metadata : PyMeta)
  : LM string :=
  let metadata_str :=
    if meta_truthy metadata
    then LF ++ "Page metadata: " ++ repr metadata
    else "" in
  let full_text := text ++ metadata_str in
  call_extractor domain full_text url.

(** [for page in pages[:3]: ... initial_rdfs.append(page_rdf)] *)
Fixpoint extract_each (domain : string) (pages : list Page)
  : LM (list string) :=
  match pages with
  | [] => ret []
  | page :: rest =>
      page_rdf <- _extract_page_rdf domain (text page) (url page)
                    (metadata page) ;;
      initial_rdfs <- extract_each domain rest ;;
      ret (page_rdf :: initial_rdfs)
  end.

(** [for i, page in enumerate(pages): ...], from the accumulator
    [canonical_rdf]. *)
Fixpoint merge_loop (domain : string) (pages : list Page)
    (canonical_rdf : string) : LM string :=
  match pages with
  | [] => ret canonical_rdf
  | page :: rest =>
      page_rdf <- _extract_page_rdf domain (text page) (url page)
                    (metadata page) ;;
      merged_rdf <- call_merger canonical_rdf page_rdf (url page) domain ;;
      merge_loop domain rest merged_rdf
  end.

Record Prediction := mkPrediction {
  canonical_graph : string;
  pages_processed : nat
}.

(** [IncrementalLandscapeBuilder.forward] *)
Definition forward (domain : string) (pages : list Page) : LM Prediction :=
  canonical_rdf <-
    (if Nat.ltb 3 (List.length pages) then
       initial_rdfs <- extract_each domain (firstn 3 pages) ;;
       schema_rdf <- call_schema_inferrer domain
                       (join (LF ++ "---" ++ LF) initial_rdfs) ;;
       ret schema_rdf
     else ret "") ;;
  canonical_rdf <- merge_loop domain pages canonical_rdf ;;
  ret (mkPrediction canonical_rdf (List.length pages)).

(** The fragment the extraction oracle returns for a page. *)
Definition fragment (domain : string) (page : Page) : string :=
  value (_extract_page_rdf domain (text page) (url page) (metadata page)).

(** One step of the fold the specification speaks of: the merge oracle
    applied to the accumulated text and the page's fragment. *)
Definition merge_step (domain : string) (canonical : string) (page : Page)
  : string :=
  merger lm canonical (fragment domain page) (url page) domain.

(** The text the accumulator is seeded with, in the specification's
    words: the inferred schema for more than three pages, else empty. *)
Definition seed (domain : string) (pages : list Page) : string :=
  if Nat.ltb 3 (List.length pages)
  then schema_inferrer lm domain
         (join (LF ++ "---" ++ LF) (map (fragment domain) (firstn 3 pages)))
  else "".

(** The extraction calls made for a list of pages, one after the other. *)
Definition extraction_calls (domain : string) (pages : list Page)
  : list LMCall :=
  flat_map
    (fun p => calls (_extract_page_rdf domain (text p) (url p) (metadata p)))
    pages.

(** The canonical text after the first [i] pages have been folded in. *)
Definition canonical_after (domain : string) (pages : list Page) (i : nat)
  : string :=
  fold_left (merge_step domain) (firstn i pages) (seed domain pages).

End Builder.

Definition is_extract (c : LMCall) : bool :=
  match c with ExtractCall _ _ _ => true | _ => false end.
Definition is_schema (c : LMCall) : bool :=
  match c with SchemaCall _ _ => true | _ => false end.
Definition is_merge (c : LMCall) : bool :=
  match c with MergeCall _ _ _ _ => true | _ => false end.

(** *** Crawling *)

(** What the loop prints, one constructor per [print] call. *)
Inductive Printed :=
| Crawling (url : string)
| Success (url : string)
| WarnNoMarkdown (url : string)
| WarnNoContent (url : string)
| FullResult (d : ResponseDict)
| WarnUnexpected (url : string)
| ResultAttributes
| WarnEmpty (url : string)
| ErrorCrawling (url name msg : string)
| Traceback.

(** [a or b] on text entries. *)
Definition text_or (a b : option string) : option string :=
  if text_truthy a then a else b.

(** [result.get('data', {}).get('markdown')] *)
Definition data_markdown (d : DataField) : option string :=
  match d with
  | DataAbsent => None
  | DataDict md _ => md
  end.

(** [result.get('data', {}).get('metadata', {})] *)
Definition data_metadata (d : DataField) : PyMeta :=
  match d with
  | DataDict _ (Some m) => m
  | _ => MetaDict []
  end.

(** The text held by a content value that passed [if content:]. *)
Definition text_of (content : option string) : string :=
  match content with Some t => t | None => "" end.

(** The body of the [try] for one URL once [scrape_url] has returned:
    the pages appended and the lines printed. *)
Definition handle_result (url : string) (result : ScrapeResult)
  : list Page * list Printed :=
  match result with
  | EmptyResult => ([], [WarnEmpty url])
  | ResponseObject markdown meta =>
      let content := markdown in
      let metadata :=
        match meta with Some m => m | None => MetaDict [] end in
      if text_truthy content
      then ([mkPage url (text_of content) metadata], [Success url])
      else ([], [WarnNoMarkdown url])
  | DictResult d =>
      let content :=
        text_or (rd_markdown d)
          (text_or (rd_content d) (data_markdown (rd_data d))) in
      let metadata :=
        if meta_truthy (rd_metadata d) then rd_metadata d
        else data_metadata (rd_data d) in
      if text_truthy content
      then ([mkPage url (text_of content) metadata], [Success url])
      else ([], [WarnNoContent url; FullResult d])
  | UnexpectedResult has_dict =>
      ([], WarnUnexpected url :: if has_dict then [ResultAttributes] else [])
  end.

(** One turn of [for url in urls], [try]/[except] included. *)
Definition crawl_url (scrape_url : string -> ScrapeOutcome) (url : string)
  : list Page * list Printed :=
  match scrape_url url with
  | Returned result =>
      let (new_pages, printed) := handle_result url result in
      (new_pages, Crawling url :: printed)
  | Raised name msg =>
      ([], [Crawling url; ErrorCrawling url name msg; Traceback])
  end.

(** [crawl_pages_with_firecrawl], from the pages and the output so far. *)
Fixpoint crawl_loop (scrape_url : string -> ScrapeOutcome)
    (urls : list string) (pages : list Page) (out : list Printed)
  : list Page * list Printed :=
  match urls with
  | [] => (pages, out)
  | url :: rest =>
      let (new_pages, printed) := crawl_url scrape_url url in
      crawl_loop scrape_url rest (pages ++ new_pages)%list
        (out ++ printed)%list
  end.

Definition crawl_pages_with_firecrawl
    (scrape_url : string -> ScrapeOutcome) (urls : list string)
  : list Page * list Printed :=
  crawl_loop scrape_url urls [] [].

(** The three ways a fetch fails, read off the client's answer alone. *)
Definition has_content (r : ScrapeResult) : bool :=
  match r with
  | EmptyResult => false
  | ResponseObject markdown _ => text_truthy markdown
  | DictResult d =>
      text_truthy (rd_markdown d) || text_truthy (rd_content d)
      || text_truthy (data_markdown (rd_data d))
  | UnexpectedResult _ => false
  end.

Inductive FetchFailure : ScrapeOutcome -> Prop :=
| client_exception (name msg : string) : FetchFailure (Raised name msg)
| empty_result : FetchFailure (Returned EmptyResult)
| missing_content (r : ScrapeResult) :
    has_content r = false -> FetchFailure (Returned r).

Definition fetched (o : ScrapeOutcome) : bool :=
  match o with
  | Raised _ _ => false
  | Returned r => has_content r
  end.

(** A diagnostic about [url]: a warning or an error line. *)
Definition diagnostic_for (url : string) (line : Printed) : Prop :=
  line = WarnNoMarkdown url \/ line = WarnNoContent url
  \/ line = WarnUnexpected url \/ line = WarnEmpty url
  \/ exists name msg, line = ErrorCrawling url name msg.

Definition is_crawling (line : Printed) : bool :=
  match line with Crawling _ => true | _ => false end.

(** Stubs of the services: the extractor hands the page text back, the
    merger appends the new fragment on a line of its own, the schema call
    answers with a fixed text; one URL cannot be reached, one answers with
    an empty result. *)
Definition stub_models : Models :=
  mkModels (fun _ text _ => text)
    (fun _ _ => "# schema")
    (fun canonical new_page _ _ => canonical ++ new_page ++ LF).

Definition stub_repr (m : PyMeta) : string := "{...}".

Definition stub_scrape (url : string) : ScrapeOutcome :=
  if String.eqb url "https://down.example" then
    Raised "ConnectionError" "unreachable"
  else if String.eqb url "https://empty.example" then
    Returned EmptyResult
  else Returned (ResponseObject (Some ("Text of " ++ url)) None).

Definition page_grammarly : Page :=
  mkPage "https://grammarly.com" "Grammar checking" (MetaDict []).
Definition page_jasper : Page :=
  mkPage "https://jasper.ai" "Content generation" (MetaDict []).

End Landscape.

(** ** kg-anthropic.py *)
Module KgAnthropic.

Section Extractor.

(** An rdflib graph, as the parser builds it. *)
Variable Graph : Type.

(** [g.parse(data=..., format="turtle")] on a fresh graph: the filled
    graph, or an exception with its message [str(e)]. *)
Inductive ParseOutcome :=
| Parsed (g : Graph)
| ParseError (msg : string).

(** [self.extractor(theme=..., text=...).rdf_turtle] *)
Variable extractor : string -> string -> string.
Variable parse : string -> ParseOutcome.

(** The [dspy.Prediction] returned.  [graph = None] is Python's [None];
    [error = None] stands for a prediction built without an [error]
    argument, which [extract_knowledge_graph] reads as [None]. *)
Record Prediction := mkPrediction {
  rdf_turtle : string;
  graph : option Graph;
  error : option string
}.

(** [ThemeBasedKnowledgeGraphExtractor.forward] *)
Definition forward (theme text : string) : Prediction :=
  let result := extractor theme text in
  match parse result with
  | ParseError e => mkPrediction result None (Some e)
  | Parsed g => mkPrediction result (Some g) None
  end.

End Extractor.

Arguments Parsed {Graph} g.
Arguments ParseError {Graph} msg.
Arguments rdf_turtle {Graph} p.
Arguments graph {Graph} p.
Arguments error {Graph} p.

(** A stub of the two services: the model answers with the empty text and
    the parser reads the empty Turtle document as the graph without
    statements, anything else being refused. *)
Definition TripleStore : Type := list (string * string * string).

Definition silent_extractor (theme text : string) : string := "".

Definition empty_document_parser (data : string) : ParseOutcome TripleStore :=
  match data with
  | EmptyString => Parsed []
  | _ => ParseError "Bad syntax"
  end.

(** A call that returns or raises. *)
Inductive Outcome (A : Type) :=
| Returns (a : A)
| Raises (msg : string).
Arguments Returns {A} a.
Arguments Raises {A} msg.

Section KnowledgeGraph.

Variable Graph : Type.
Variable extractor : string -> string -> string.
Variable parse : string -> ParseOutcome Graph.
(** [bool(graph)]: the truth value Python gives a graph object. *)
Variable graph_truthy : Graph -> bool.
(** [graph.serialize(format=...)]: the text, or an exception. *)
Variable serialize : Graph -> string -> Outcome string.

(** The dict returned by [extract_knowledge_graph]. *)
Record KnowledgeGraph := mkKnowledgeGraph {
  kg_rdf : string;
  kg_format : string;
  kg_graph : option Graph;
  kg_error : option string
}.

(** [extract_knowledge_graph] *)
Definition extract_knowledge_graph (theme text output_format : string)
  : Outcome KnowledgeGraph :=
  let result := forward Graph extractor parse theme text in
  let finish := fun output_rdf =>
    Returns (mkKnowledgeGraph output_rdf output_format
               (graph result) (error result)) in
  match graph result with
  | Some g =>
      if graph_truthy g && negb (String.eqb output_format "turtle")
      then match serialize g output_format with
           | Returns output_rdf => finish output_rdf
           | Raises e => Raises e
           end
      else finish (rdf_turtle result)
  | None => finish (rdf_turtle result)
  end.

End KnowledgeGraph.

Arguments kg_rdf {Graph} k.
Arguments kg_format {Graph} k.
Arguments kg_graph {Graph} k.
Arguments kg_error {Graph} k.

(** Stubs: a parser that reads any text as a store of one statement, a
    serializer that knows XML only. *)
Definition one_statement_parser (data : string) : ParseOutcome TripleStore :=
  Parsed [(data, "a", "Thing")].

Definition refusing_parser (data : string) : ParseOutcome TripleStore :=
  ParseError "Bad syntax".

Definition store_truthy (g : TripleStore) : bool :=
  match g with [] => false | _ :: _ => true end.

Definition xml_only_serializer (g : TripleStore) (fmt : string)
  : Outcome string :=
  if String.eqb fmt "xml" then Returns "<rdf:RDF/>"
  else Raises "No plugin registered".

End KgAnthropic.

(** ** landscape_schema.py

    The [print] calls of this file are left out; directory creation, model
    calls and file writes are recorded as events, in order.  [os.makedirs]
    is taken to succeed; whether a file can be opened for writing, which
    file a path names and which exception a failed [open] raises are
    parameters of the run ([open_file] below). *)
Module LandscapeSchema.
Import PyStr Firecrawl.

Definition LF : ascii := "010"%char.
Definition NL : string := String LF "".

(** A page dict.  ['text'] is [result.markdown] unchecked, so it may be
    [None]. *)
Record Page := mkPage {
  url : string;
  text : option string;
  metadata : PyMeta
}.

(** An insertion-ordered dict from strings to strings. *)
Definition Dict : Type := list (string * string).

(** [d[k] = v]: an existing key keeps its place. *)
Fixpoint dict_set (k v : string) (d : Dict) : Dict :=
  match d with
  | [] => [(k, v)]
  | (k', v') :: d' =>
      if String.eqb k k' then (k, v) :: d'
      else (k', v') :: dict_set k v d'
  end.

Fixpoint dict_get (k : string) (d : Dict) : option string :=
  match d with
  | [] => None
  | (k', v') :: d' => if String.eqb k k' then Some v' else dict_get k d'
  end.

Inductive Event :=
| MakeDirs (path : string)
| SchemaExtraction (domain pages_content : string)
| InstanceExtraction (schema_rdf domain : string)
    (page_content : option string) (page_url : string)
| WriteFile (path content : string).

Inductive Result (A : Type) :=
| Ok (a : A)
| Raise (exn : string).
Arguments Ok {A} a.
Arguments Raise {A} exn.

(** A computation that returns or raises, and the events it caused. *)
Definition IO (A : Type) : Type := Result A * list Event.

Definition ret {A : Type} (a : A) : IO A := (Ok a, []).

Definition bind {A B : Type} (m : IO A) (k : A -> IO B) : IO B :=
  match fst m with
  | Ok a => let (r, caused) := k a in (r, (snd m ++ caused)%list)
  | Raise e => (Raise e, snd m)
  end.

Notation "x <- m ;; k" := (bind m (fun x => k))
  (at level 61, m at next level, right associativity).

Definition emit (e : Event) : IO unit := (Ok tt, [e]).

Definition lift {A : Type} (r : Result A) : IO A := (r, []).

Record Models := mkModels {
  schema_extractor : string -> string -> string;
  instance_extractor : string -> string -> option string -> string -> string
}.

(** *** Paths *)

Definition is_slash (c : ascii) : bool := Ascii.eqb c "/"%char.

(** [os.path.join(a, b)] (POSIX). *)
Definition path_join (a b : string) : string :=
  if starts_in is_slash b then b
  else match a with
       | EmptyString => b
       | _ => if ends_in is_slash a then a ++ b else a ++ "/" ++ b
       end.

(** [os.path.basename(p)] (POSIX): what follows the last slash. *)
Fixpoint basename_from (acc s : string) : string :=
  match s with
  | EmptyString => acc
  | String c s' =>
      if is_slash c then basename_from EmptyString s'
      else basename_from (acc ++ String c EmptyString) s'
  end.

Definition basename (p : string) : string := basename_from EmptyString p.

(** [f"{domain.lower().replace(' ', '-')}-schema.ttl"] *)
Definition schema_file_name (domain : string) : string :=
  replace " " "-" (lower domain) ++ "-schema.ttl".

(** [f"{domain.lower().replace(' ', '-')}-all-instances.ttl"] *)
Definition merged_file_name (domain : string) : string :=
  replace " " "-" (lower domain) ++ "-all-instances.ttl".

(** [url.replace("https://", "").replace("/", "_").replace(".", "_") + ".ttl"] *)
Definition instance_file_name (url : string) : string :=
  replace "." "_" (replace "/" "_" (replace "https://" "" url)) ++ ".ttl".

(** *** The builder *)
Section Builder.

Variable lm : Models.

(** [f"URL: {p['url']}\nContent: {p['text'][:1000]}..."]; slicing [None]
    raises. *)
Definition page_summary (p : Page) : Result string :=
  match text p with
  | Some t => Ok ("URL: " ++ url p ++ NL ++ "Content: " ++ take 1000 t ++ "...")
  | None => Raise "TypeError"
  end.

Fixpoint page_summaries (pages : list Page) : Result (list string) :=
  match pages with
  | [] => Ok []
  | p :: rest =>
      match page_summary p with
      | Raise e => Raise e
      | Ok s =>
          match page_summaries rest with
          | Raise e => Raise e
          | Ok ss => Ok (s :: ss)
          end
      end
  end.

(** [SchemaBasedLandscapeBuilder.extract_schema] *)
Definition extract_schema (domain : string) (pages : list Page) : IO string :=
  summaries <- lift (page_summaries pages) ;;
  let pages_content := join (NL ++ NL ++ "---PAGE---" ++ NL ++ NL) summaries in
  _ <- emit (SchemaExtraction domain pages_content) ;;
  ret (schema_extractor lm domain pages_content).

(** [SchemaBasedLandscapeBuilder.extract_instances] *)
Definition extract_instances (schema domain : string) (page : Page)
  : IO string :=
  _ <- emit (InstanceExtraction schema domain (text page) (url page)) ;;
  ret (instance_extractor lm schema domain (text page) (url page)).

(** [for page in pages: ... instances[page['url']] = instance_rdf] *)
Fixpoint instances_loop (schema domain : string) (pages : list Page)
    (instances : Dict) : IO Dict :=
  match pages with
  | [] => ret instances
  | page :: rest =>
      instance_rdf <- extract_instances schema domain page ;;
      instances_loop schema domain rest
        (dict_set (url page) instance_rdf instances)
  end.

Record Prediction := mkPrediction {
  schema : string;
  instances : Dict
}.

(** [SchemaBasedLandscapeBuilder.forward] *)
Definition forward (domain : string) (pages : list Page) : IO Prediction :=
  schema <- extract_schema domain pages ;;
  instances <- instances_loop schema domain pages [] ;;
  ret (mkPrediction schema instances).

(** The instance text the oracle returns for a page, and one turn of the
    loop on the dict. *)
Definition instance_output (schema domain : string) (p : Page) : string :=
  instance_extractor lm schema domain (text p) (url p).

Definition store_instance (schema domain : string) (d : Dict) (p : Page)
  : Dict :=
  dict_set (url p) (instance_output schema domain p) d.

(** The instances of a run whose pages have pairwise distinct URLs. *)
Definition instances_of (schema domain : string) (pages : list Page) : Dict :=
  map (fun p => (url p, instance_output schema domain p)) pages.

(** *** Crawling *)

Variable scrape_url : string -> ScrapeOutcome.

(** One turn of [for url in urls]: the pages appended. *)
Definition crawl_url (url : string) : list Page :=
  match scrape_url url with
  | Returned (ResponseObject markdown meta) =>
      [mkPage url markdown
         (match meta with Some m => m | None => MetaDict [] end)]
  | Returned _ => []
  | Raised _ _ => []
  end.

Fixpoint crawl_loop (urls : list string) (pages : list Page) : list Page :=
  match urls with
  | [] => pages
  | url :: rest => crawl_loop rest (pages ++ crawl_url url)%list
  end.

(** [crawl_pages_with_firecrawl] *)
Definition crawl_pages_with_firecrawl (urls : list string) : list Page :=
  crawl_loop urls [].

(** *** Output files *)

(** The file system as a run meets it.  [open_file path] is the outcome of
    [open(path, 'w')]: the file opened, named by its canonical path, or the
    exception raised ([FileNotFoundError] for a missing parent directory,
    [IsADirectoryError], [PermissionError], ...).  The run creates no
    directory after [os.makedirs], so the outcome for a path is the same
    all through it. *)
Variable open_file : string -> Result string.

(** [with open(path, 'w') as f: f.write(content)]; the event is recorded
    when the file has been opened, and the write that follows is taken to
    succeed. *)
Definition write_file (path content : string) : IO unit :=
  match open_file path with
  | Ok _ => emit (WriteFile path content)
  | Raise e => lift (Raise e)
  end.

(** The text of one instance file. *)
Definition instance_content (schema_filename instance_rdf : string) : string :=
  "@prefix : <http://example.org/ai-writing-tools#> ." ++ NL
  ++ "@prefix owl: <http://www.w3.org/2002/07/owl#> ." ++ NL
  ++ NL
  ++ "# This instance file imports the schema" ++ NL
  ++ "<> owl:imports <./" ++ schema_filename ++ "> ." ++ NL
  ++ NL
  ++ "# Instance data that conforms to the imported schema" ++ NL
  ++ instance_rdf.

(** [for url, instance_rdf in result.instances.items(): ...] *)
Fixpoint save_instances (output_dir schema_path : string) (instances : Dict)
  : IO unit :=
  match instances with
  | [] => ret tt
  | (url, instance_rdf) :: rest =>
      let filename := instance_file_name url in
      let instance_path := path_join output_dir filename in
      let schema_filename := basename schema_path in
      _ <- write_file instance_path
             (instance_content schema_filename instance_rdf) ;;
      save_instances output_dir schema_path rest
  end.

(** The [f.write] calls that open the merged file. *)
Definition merged_header (schema_filename : string) : list string :=
  [ "@prefix : <http://example.org/ai-writing-tools#> ." ++ NL;
    "@prefix rdfs: <http://www.w3.org/2000/01/rdf-schema#> ." ++ NL;
    "@prefix rdf: <http://www.w3.org/1999/02/22-rdf-syntax-ns#> ." ++ NL;
    "@prefix xsd: <http://www.w3.org/2001/XMLSchema#> ." ++ NL;
    "@prefix prov: <http://www.w3.org/ns/prov#> ." ++ NL;
    "@prefix owl: <http://www.w3.org/2002/07/owl#> ." ++ NL ++ NL;
    "# This file imports the schema" ++ NL;
    "<> owl:imports <./" ++ schema_filename ++ "> ." ++ NL;
    NL ++ "### All Instance Data ###" ++ NL ].

(** [for line in lines: if not line.startswith('@prefix'): f.write(line + '\n')] *)
Definition kept_lines (instance_rdf : string) : list string :=
  filter (fun line => negb (startswith "@prefix" line)) (split LF instance_rdf).

(** The [f.write] calls for one entry of the instances. *)
Definition merged_section (entry : string * string) : list string :=
  let (url, instance_rdf) := entry in
  (NL ++ "### From " ++ url ++ " ###" ++ NL)
    :: map (fun line => line ++ NL) (kept_lines instance_rdf).

(** What the merged file holds when it is closed. *)
Definition merged_content (schema_filename : string) (instances : Dict)
  : string :=
  String.concat ""
    (merged_header schema_filename ++ flat_map merged_section instances).

Record Summary := mkSummary {
  summary_schema : string;
  summary_instances : Dict;
  pages_processed : nat
}.

(** [build_landscape_schema_and_instances] *)
Definition build_landscape_schema_and_instances
    (domain : string) (urls : list string) (output_dir : string)
  : IO Summary :=
  _ <- emit (MakeDirs output_dir) ;;
  let pages := crawl_pages_with_firecrawl urls in
  match pages with
  | [] => ret (mkSummary "" [] 0)
  | _ :: _ =>
      result <- forward domain pages ;;
      let schema_path := path_join output_dir (schema_file_name domain) in
      _ <- write_file schema_path (schema result) ;;
      _ <- save_instances output_dir schema_path (instances result) ;;
      let merged_path := path_join output_dir (merged_file_name domain) in
      let schema_filename := basename schema_path in
      _ <- write_file merged_path
             (merged_content schema_filename (instances result)) ;;
      ret (mkSummary (schema result) (instances result) (List.length pages))
  end.

End Builder.

Definition is_write (e : Event) : bool :=
  match e with WriteFile _ _ => true | _ => false end.

(** The files a run that has come to its writes means to write, in order:
    path and text. *)
Definition output_files (output_dir domain schema : string) (instances : Dict)
  : list (string * string) :=
  let schema_path := path_join output_dir (schema_file_name domain) in
  let schema_filename := basename schema_path in
  ((schema_path, schema)
   :: map (fun e => (path_join output_dir (instance_file_name (fst e)),
                     instance_content schema_filename (snd e))) instances
   ++ [(path_join output_dir (merged_file_name domain),
        merged_content schema_filename instances)])%list.

(** The exception raised at the first file of the list that cannot be
    opened, if there is one; the writes made, one file after the other,
    until then. *)
Fixpoint first_failure (open_file : string -> Result string)
    (outputs : list (string * string)) : option string :=
  match outputs with
  | [] => None
  | (path, _) :: rest =>
      match open_file path with
      | Ok _ => first_failure open_file rest
      | Raise e => Some e
      end
  end.

Fixpoint written (open_file : string -> Result string)
    (outputs : list (string * string)) : list Event :=
  match outputs with
  | [] => []
  | (path, content) :: rest =>
      match open_file path with
      | Ok _ => WriteFile path content :: written open_file rest
      | Raise _ => []
      end
  end.

(** How a computation ends that returns [a] unless a write failed. *)
Definition unless_failed {A : Type} (failure : option string) (a : A)
  : Result A :=
  match failure with None => Ok a | Some e => Raise e end.



(** The lines of a text, parted at its line feeds as the code parts a
    fragment, and the lines the code takes for prefix declarations. *)
Definition lines (s : string) : list string := split LF s.

Definition is_prefix_line (line : string) : bool := startswith "@prefix" line.









(** The text made of the given lines, each closed by a line break. *)
Definition unlines (ls : list string) : string :=
  fold_right (fun line rest => line ++ NL ++ rest) "" ls.



(** A stub of the services: every URL is fetched, with the same text; the
    models answer with fixed texts. *)
Definition stub_models : Models :=
  mkModels (fun _ _ => "# schema")
    (fun _ _ _ page_url => "<" ++ page_url ++ "> a :Tool .").

Definition stub_scrape (url : string) : ScrapeOutcome :=
  Returned (ResponseObject (Some "Some page text") None).

Definition failing_scrape (url : string) : ScrapeOutcome :=
  Raised "ConnectionError" "unreachable".

(** Stubs of the file system: one where every path can be opened and names
    a file of its own; one that holds the directory [dir] and nothing below
    it, so that [dir/name] can be opened when [name] has no slash, and no
    other path. *)
Definition open_any (path : string) : Result string := Ok path.

Definition open_in_fresh (dir path : string) : Result string :=
  if String.prefix (dir ++ "/") path
     && negb (mem_char "/"%char (drop (String.length dir + 1) path))
  then Ok path
  else Raise "FileNotFoundError".

(** Stubs of the models: an instance call that reads the page text; a
    schema call that answers with its prompt, followed by an instance call
    that quotes the schema; instance calls whose fragments hold an indented
    import statement, or an indented prefix declaration. *)
Definition reading_models : Models :=
  mkModels (fun _ _ => "# schema")
    (fun _ _ page_content page_url =>
       "<" ++ page_url ++ "> :text '"
       ++ match page_content with Some t => t | None => "" end ++ "' .").

Definition echo_models : Models :=
  mkModels (fun _ pages_content => pages_content)
    (fun schema_rdf _ _ page_url =>
       "<" ++ page_url ++ "> :schema '" ++ schema_rdf ++ "' .").




Definition page_grammarly : Page :=
  mkPage "https://grammarly.com" (Some "Grammar checking") (MetaDict []).
Definition page_jasper : Page :=
  mkPage "https://jasper.ai" (Some "Content generation") (MetaDict []).
Definition page_copy : Page :=
  mkPage "https://copy.ai" (Some "Copywriting") (MetaDict []).
(** The page of [page_jasper]'s URL as a later fetch returns it. *)
Definition page_jasper_later : Page :=
  mkPage "https://jasper.ai" (Some "Content generation, new pricing")
    (MetaDict []).

(** The keys of a dict, in order. *)
Definition keys (d : Dict) : list string := map fst d.

(** [n] copies of a character. *)
Fixpoint replicate (n : nat) (c : ascii) : string :=
  match n with
  | O => EmptyString
  | S n' => String c (replicate n' c)
  end.

(** Two pages with the same URL whose texts agree on the first 1000
    characters only. *)
Definition long_page_a : Page :=
  mkPage "https://jasper.ai" (Some (replicate 1000 "a"%char ++ "first ending"))
    (MetaDict []).
Definition long_page_b : Page :=
  mkPage "https://jasper.ai" (Some (replicate 1000 "a"%char ++ "second ending"))
    MetaNone.

(** The client returned an object with a [markdown] attribute. *)
Definition is_response_object (o : ScrapeOutcome) : bool :=
  match o with
  | Returned (ResponseObject _ _) => true
  | _ => false
  end.

(** Stubs: a client whose answer has a [markdown] attribute holding
    [None]; a client answering with a dict that carries content. *)
Definition blank_scrape (url : string) : ScrapeOutcome :=
  Returned (ResponseObject None None).

Definition dict_scrape (url : string) : ScrapeOutcome :=
  Returned (DictResult
              (mkResponseDict (Some "Text in a dict") None DataAbsent MetaNone)).

End LandscapeSchema.

(** ** landscape.py, continued: [build_landscape_knowledge_graph] *)
Module LandscapeGraph.
Import PyStr Firecrawl Landscape.

Section KnowledgeGraph.

Variable lm : Models.
Variable repr : PyMeta -> string.
Variable Graph : Type.
(** [g.parse(data=..., format="turtle")] on a fresh graph. *)
Variable parse : string -> KgAnthropic.ParseOutcome Graph.
(** [len(g)] *)
Variable graph_len : Graph -> nat.
(** [g.serialize(format=...)]: the text, or an exception. *)
Variable serialize : Graph -> string -> KgAnthropic.Outcome string.

(** The ["stats"] dict: the two counters, or the error message. *)
Inductive Stats :=
| StatsOk (total_triples pages_processed : nat)
| StatsError (error : string).

Record Built := mkBuilt {
  built_graph : string;
  stats : Stats
}.

(** [build_landscape_knowledge_graph]; the [try] covers parsing and
    serialisation. *)
Definition build_landscape_knowledge_graph
    (domain : string) (pages : list Page) (output_format : string)
  : LM Built :=
  result <- forward lm repr domain pages ;;
  ret (match parse (canonical_graph result) with
       | KgAnthropic.Parsed g =>
           if negb (String.eqb output_format "turtle")
           then match serialize g output_format with
                | KgAnthropic.Returns output_rdf =>
                    mkBuilt output_rdf
                      (StatsOk (graph_len g) (pages_processed result))
                | KgAnthropic.Raises e =>
                    mkBuilt (canonical_graph result) (StatsError e)
                end
           else mkBuilt (canonical_graph result)
                  (StatsOk (graph_len g) (pages_processed result))
       | KgAnthropic.ParseError e =>
           mkBuilt (canonical_graph result) (StatsError e)
       end).

End KnowledgeGraph.

End LandscapeGraph.

(** ** landscape.py, continued: [SimpleAccumulator] *)
Module SimpleAccumulator.
Import PyStr Firecrawl Landscape.

(** The two predictors of the class and the calls made to them. *)
Inductive Call :=
| ExtractRDF (domain text url : string)
| MergeRDF (current_graph new_content domain : string).

Record Models := mkModels {
  extractor : string -> string -> string -> string;
  merger : string -> string -> string -> string
}.

Definition is_extract (c : Call) : bool :=
  match c with ExtractRDF _ _ _ => true | _ => false end.
Definition is_merge (c : Call) : bool :=
  match c with MergeRDF _ _ _ => true | _ => false end.

Section Forward.

Variable lm : Models.
Variable repr : PyMeta -> string.

(** [page['text']], with the metadata line when the page has a true
    ['metadata'] entry. *)
Definition text_with_metadata (page : Page) : string :=
  if meta_truthy (metadata page)
  then text page ++ LF ++ "Page metadata: " ++ repr (metadata page)
  else text page.

(** The [rdf] the extractor returns for a page. *)
Definition extracted (domain : string) (page : Page) : string :=
  extractor lm domain (text_with_metadata page) (url page).

(** One turn of [for page in pages], on the graph and the calls so far. *)
Definition turn (domain : string) (state : string * list Call) (page : Page)
  : string * list Call :=
  let (graph, made) := state in
  let made :=
    (made ++ [ExtractRDF domain (text_with_metadata page) (url page)])%list in
  match graph with
  | EmptyString => (extracted domain page, made)
  | _ =>
      (merger lm graph (extracted domain page) domain,
       (made ++ [MergeRDF graph (extracted domain page) domain])%list)
  end.

(** [SimpleAccumulator.forward]: the final graph and the calls made. *)
Definition forward (domain : string) (pages : list Page)
  : string * list Call :=
  fold_left (turn domain) pages ("", []).

End Forward.

(** How many of the calls made are of the kind [f]. *)
Definition count_calls (f : Call -> bool) (made : list Call) : nat :=
  List.length (filter f made).

(** Stubs: a merger that answers with the empty text. *)
Definition forgetful_models : Models :=
  mkModels (fun _ _ url => "<" ++ url ++ ">") (fun _ _ _ => "").

(** A stub: the extractor quotes the URL, the merger joins with a line
    break; neither returns the empty text. *)
Definition stub_models : Models :=
  mkModels (fun _ _ url => "<" ++ url ++ ">")
    (fun graph new_content _ => graph ++ LF ++ new_content).

End SimpleAccumulator.

(* ================================================================== *)
(** * Part II -- theorems                                              *)
(* ================================================================== *)

Import PyStr.

(** ** Strings *)
Section StringFacts.

Lemma append_nil_r (s : string) : s ++ "" = s.
Proof. induction s as [|c s IH]; simpl; [reflexivity | now rewrite IH]. Qed.

Lemma append_assoc (a b c : string) : (a ++ b) ++ c = a ++ (b ++ c).
Proof. induction a as [|x a IH]; simpl; [reflexivity | now rewrite IH]. Qed.

Lemma append_snoc_cons (a : string) (c : ascii) (b : string) :
  (a ++ String c "") ++ b = a ++ String c b.
Proof. now rewrite append_assoc. Qed.

Lemma length_snoc (a : string) (c : ascii) :
  String.length (a ++ String c "") = S (String.length a).
Proof. induction a as [|x a IH]; simpl; [reflexivity | now rewrite IH]. Qed.

Lemma snoc_not_empty (a : string) (c : ascii) : a ++ String c "" <> "".
Proof. destruct a; discriminate. Qed.

Variable p : ascii -> bool.

Lemma lstrip_starts (s : string) : starts_in p (lstrip p s) = false.
Proof.
  induction s as [|c s IH]; simpl; [reflexivity|].
  destruct (p c) eqn:E; [exact IH | simpl; exact E].
Qed.

Lemma lstrip_id (s : string) : starts_in p s = false -> lstrip p s = s.
Proof. destruct s as [|c s]; simpl; [reflexivity | now intros ->]. Qed.

Lemma rstrip_cons (c : ascii) (s : string) :
  rstrip p (String c s) = "" \/ exists r, rstrip p (String c s) = String c r.
Proof.
  simpl. destruct (rstrip p s) as [|d r].
  - destruct (p c); [now left | right; now exists ""].
  - right. now eexists.
Qed.

Lemma rstrip_starts (s : string) :
  starts_in p s = false -> starts_in p (rstrip p s) = false.
Proof.
  destruct s as [|c s]; [reflexivity|]. intros H.
  destruct (rstrip_cons c s) as [-> | [r ->]]; [reflexivity | exact H].
Qed.

Lemma rstrip_ends (s : string) : ends_in p (rstrip p s) = false.
Proof.
  induction s as [|c s IH]; simpl; [reflexivity|].
  destruct (rstrip p s) as [|d r] eqn:E.
  - destruct (p c) eqn:Ec; simpl; [reflexivity | exact Ec].
  - exact IH.
Qed.

Lemma lstrip_ends (s : string) :
  ends_in p s = false -> ends_in p (lstrip p s) = false.
Proof.
  induction s as [|c s IH]; [reflexivity|]. intros H. simpl lstrip.
  destruct (p c) eqn:Ec; [|exact H].
  apply IH. destruct s as [|d s]; [reflexivity | exact H].
Qed.

Lemma rstrip_append_keep (a b : string) :
  rstrip p b <> "" -> rstrip p (a ++ b) = a ++ rstrip p b.
Proof.
  intros H. induction a as [|c a IH]; simpl; [reflexivity|].
  rewrite IH. destruct (a ++ rstrip p b) as [|d r] eqn:E; [|reflexivity].
  destruct a; simpl in E; [contradiction | discriminate].
Qed.

Lemma rstrip_append_drop (a b : string) :
  rstrip p b = "" -> rstrip p (a ++ b) = rstrip p a.
Proof.
  intros H. induction a as [|c a IH]; simpl; [exact H | now rewrite IH].
Qed.

Lemma rstrip_snoc_keep (a : string) (c : ascii) :
  p c = false -> rstrip p (a ++ String c "") = a ++ String c "".
Proof.
  intros H.
  assert (E : rstrip p (String c "") = String c "") by (simpl; now rewrite H).
  rewrite <- E at 2. apply rstrip_append_keep. rewrite E. discriminate.
Qed.

Lemma strip_ends (s : string) :
  starts_in p (strip p s) = false /\ ends_in p (strip p s) = false.
Proof.
  unfold strip. split; [apply lstrip_starts|].
  apply lstrip_ends, rstrip_ends.
Qed.

End StringFacts.

(** ** kg-openai.py: [slugify] *)
Section SlugFacts.
Import KgOpenai.

Lemma alnum_not_underscore (c : ascii) :
  is_alnum c = true -> is_underscore c = false.
Proof.
  intros H. unfold is_underscore. destruct (Ascii.eqb_spec c underscore) as [->|]; 
    [vm_compute in H; discriminate | reflexivity].
Qed.

Lemma space_not_alnum (c : ascii) :
  is_space c = true -> is_alnum (lower_char c) = false.
Proof.
  destruct c as [[] [] [] [] [] [] [] []]; vm_compute; congruence.
Qed.

(** The stored-run substitution for [[cls]+] agrees with the flag one. *)
Lemma re_sub_plus_collapse (cls : ascii -> bool) (run s : string) :
  re_sub_runs_from cls 1 "_" run s =
  match run with
  | "" => collapse cls false s
  | _ => String "_" (collapse cls true s)
  end.
Proof.
  revert run. induction s as [|c s IH]; intros run; simpl.
  - destruct run; reflexivity.
  - destruct (cls c).
    + rewrite IH. destruct run; reflexivity.
    + rewrite IH. destruct run; reflexivity.
Qed.

Lemma collapse_true_starts (s : string) :
  starts_in is_underscore (collapse not_alnum true s) = false.
Proof.
  induction s as [|c s IH]; simpl; [reflexivity|].
  assert (Ho : not_alnum c = negb (is_alnum c)) by reflexivity.
  rewrite Ho. destruct (is_alnum c) eqn:E; simpl; [|exact IH].
  now apply alnum_not_underscore.
Qed.

Lemma collapse_no_double (b : bool) (s : string) :
  no_double is_underscore (collapse not_alnum b s) = true.
Proof.
  revert b. induction s as [|c s IH]; intros b; simpl; [reflexivity|].
  assert (Ho : not_alnum c = negb (is_alnum c)) by reflexivity.
  rewrite Ho. destruct (is_alnum c) eqn:E; simpl.
  - rewrite (alnum_not_underscore c E), IH. reflexivity.
  - destruct b; [apply IH|]. simpl.
    rewrite collapse_true_starts, IH. reflexivity.
Qed.

(** On a text without doubled underscores [re.sub(r"_{2,}", "_", .)]
    changes nothing. *)
Lemma re_sub_double_id (run s : string) :
  no_double is_underscore s = true ->
  run = "" \/ (run = "_" /\ starts_in is_underscore s = false) ->
  re_sub_runs_from is_underscore 2 "_" run s = run ++ s.
Proof.
  revert run. induction s as [|c s IH]; intros run Hd Hrun; simpl.
  - destruct Hrun as [-> | [-> _]]; reflexivity.
  - simpl in Hd. apply andb_prop in Hd as [Hc Hd].
    destruct (is_underscore c) eqn:E.
    + destruct Hrun as [-> | [_ Hs]]; [|simpl in Hs; congruence].
      simpl in Hc. apply negb_true_iff in Hc.
      apply Ascii.eqb_eq in E. subst c. simpl append.
      rewrite IH; [reflexivity | exact Hd | right; now split].
    + rewrite (IH "" Hd (or_introl eq_refl)).
      destruct Hrun as [-> | [-> _]]; reflexivity.
Qed.

Lemma close_run_cons (cur : string) : cur <> "" -> close_run cur = [cur].
Proof. destruct cur; [contradiction | reflexivity]. Qed.

Lemma alnum_runs_nonempty (cur s : string) :
  Forall (fun r => r <> "") (alnum_runs_from cur s).
Proof.
  revert cur. induction s as [|c s IH]; intros cur; simpl.
  - destruct cur; constructor; [discriminate | constructor].
  - destruct (is_alnum c); [apply IH|].
    apply Forall_app. split; [|apply IH].
    destruct cur; constructor; [discriminate | constructor].
Qed.

Lemma join_empty_runs (s : string) :
  join "_" (alnum_runs_from "" s) = "" -> alnum_runs_from "" s = [].
Proof.
  pose proof (alnum_runs_nonempty "" s) as H.
  destruct (alnum_runs_from "" s) as [|r rs]; [reflexivity|].
  inversion H as [|? ? Hr _]; subst. unfold join; simpl. intros Hj.
  destruct rs; destruct r; try contradiction; discriminate.
Qed.

(** The collapsed text, cut at its right end, is the underscore-joined
    list of alphanumeric runs. *)
Lemma collapse_runs (t : string) :
  (forall cur, cur <> "" -> rstrip is_underscore cur = cur ->
     rstrip is_underscore (cur ++ collapse not_alnum false t)
     = join "_" (alnum_runs_from cur t))
  /\ rstrip is_underscore (collapse not_alnum true t)
     = join "_" (alnum_runs_from "" t).
Proof.
  induction t as [|c t [IHG IHH]]; simpl.
  - split; [|reflexivity]. intros cur Hne Hcur.
    rewrite append_nil_r, Hcur, close_run_cons by assumption.
    unfold join; simpl. reflexivity.
  - assert (Ho : not_alnum c = negb (is_alnum c)) by reflexivity.
    rewrite !Ho. destruct (is_alnum c) eqn:E; simpl negb; cbv iota.
    + assert (Hc : is_underscore c = false) by now apply alnum_not_underscore.
      split.
      * intros cur Hne Hcur. rewrite <- append_snoc_cons.
        apply IHG; [apply snoc_not_empty | now apply rstrip_snoc_keep].
      * change (String c (collapse not_alnum false t))
          with (String c "" ++ collapse not_alnum false t).
        apply IHG; [discriminate | simpl; now rewrite Hc].
    + split; [|exact IHH].
      intros cur Hne Hcur. rewrite close_run_cons by assumption.
      simpl app. unfold join in *. simpl String.concat.
      destruct (rstrip is_underscore (collapse not_alnum true t)) as [|d r] eqn:ER.
      * rewrite rstrip_append_drop by (simpl; now rewrite ER).
        symmetry in IHH. apply join_empty_runs in IHH. rewrite IHH. exact Hcur.
      * rewrite rstrip_append_keep by (simpl; rewrite ER; discriminate).
        simpl rstrip. rewrite ER.
        destruct (alnum_runs_from "" t) as [|r0 rs]; [discriminate IHH|].
        rewrite <- IHH. reflexivity.
Qed.

Lemma strip_collapse (t : string) :
  strip is_underscore (collapse not_alnum false t) = join "_" (alnum_runs t).
Proof.
  unfold strip, alnum_runs. destruct t as [|c t]; [reflexivity|].
  simpl collapse. simpl alnum_runs_from.
  assert (Ho : not_alnum c = negb (is_alnum c)) by reflexivity.
  rewrite !Ho. destruct (is_alnum c) eqn:E; simpl negb; cbv iota.
  - assert (Hc : is_underscore c = false) by now apply alnum_not_underscore.
    rewrite lstrip_id by (apply rstrip_starts; exact Hc).
    change (String c (collapse not_alnum false t))
      with (String c "" ++ collapse not_alnum false t).
    apply (proj1 (collapse_runs t)); [discriminate | simpl; now rewrite Hc].
  - simpl app. rewrite <- (proj2 (collapse_runs t)).
    simpl rstrip.
    destruct (rstrip is_underscore (collapse not_alnum true t)) as [|d r] eqn:ER;
      [reflexivity|].
    change (lstrip is_underscore (String d r) = String d r).
    apply lstrip_id. rewrite <- ER.
    apply rstrip_starts, collapse_true_starts.
Qed.

Lemma alnum_runs_from_cons (cur : string) (c : ascii) (s : string) :
  alnum_runs_from cur (String c s) =
  if is_alnum c then alnum_runs_from (cur ++ String c "") s
  else (close_run cur ++ alnum_runs_from "" s)%list.
Proof. reflexivity. Qed.

(** Stripping white space first does not change the runs. *)
Lemma runs_lstrip_space (s : string) :
  alnum_runs_from "" (lower (lstrip is_space s))
  = alnum_runs_from "" (lower s).
Proof.
  induction s as [|c s IH]; simpl; [reflexivity|].
  destruct (is_space c) eqn:E; [|reflexivity].
  now rewrite (space_not_alnum c E).
Qed.

Lemma runs_rstrip_space (s cur : string) :
  alnum_runs_from cur (lower (rstrip is_space s))
  = alnum_runs_from cur (lower s).
Proof.
  revert cur. induction s as [|c s IH]; intros cur; [reflexivity|].
  simpl rstrip. destruct (rstrip is_space s) as [|d r] eqn:ER.
  - destruct (is_space c) eqn:E; simpl.
    + rewrite (space_not_alnum c E), <- IH. simpl. now rewrite app_nil_r.
    + destruct (is_alnum (lower_char c)); now rewrite <- IH.
  - change (lower (String c (String d r)))
      with (String (lower_char c) (lower (String d r))).
    change (lower (String c s)) with (String (lower_char c) (lower s)).
    rewrite !alnum_runs_from_cons.
    destruct (is_alnum (lower_char c)); now rewrite IH.
Qed.

Lemma slugify_runs (s : string) : slugify s = spec_slugify s.
Proof.
  unfold slugify, spec_slugify, _slug_rx_sub, re_sub_runs.
  rewrite re_sub_plus_collapse.
  rewrite re_sub_double_id;
    [| apply (collapse_no_double false) | now left].
  simpl append. rewrite strip_collapse. unfold alnum_runs, strip.
  now rewrite runs_lstrip_space, runs_rstrip_space.
Qed.

End SlugFacts.

(** ** landscape.py: the incremental builder *)
Section BuilderFacts.
Import Firecrawl Landscape.

Variable lm : Models.
Variable repr : PyMeta -> string.

Lemma value_bind {A B : Type} (m : LM A) (k : A -> LM B) :
  value (bind m k) = value (k (value m)).
Proof. unfold bind, value. destruct (k (fst m)); reflexivity. Qed.

Lemma calls_bind {A B : Type} (m : LM A) (k : A -> LM B) :
  calls (bind m k) = (calls m ++ calls (k (value m)))%list.
Proof. unfold bind, value, calls. destruct (k (fst m)); reflexivity. Qed.

Lemma calls_extract_page (domain : string) (p : Page) :
  filter is_extract
    (calls (_extract_page_rdf lm repr domain (text p) (url p) (metadata p)))
  = calls (_extract_page_rdf lm repr domain (text p) (url p) (metadata p))
  /\ filter is_merge
       (calls (_extract_page_rdf lm repr domain (text p) (url p) (metadata p)))
     = []
  /\ filter is_schema
       (calls (_extract_page_rdf lm repr domain (text p) (url p) (metadata p)))
     = []
  /\ List.length
       (calls (_extract_page_rdf lm repr domain (text p) (url p) (metadata p)))
     = 1.
Proof. repeat split. Qed.

Lemma extractions_length (domain : string) (pages : list Page) :
  List.length (extraction_calls lm repr domain pages) = List.length pages.
Proof.
  induction pages as [|p pages IH]; simpl; [reflexivity | now rewrite IH].
Qed.

Lemma extractions_filter (domain : string) (pages : list Page) :
  filter is_extract (extraction_calls lm repr domain pages) = extraction_calls lm repr domain pages
  /\ filter is_merge (extraction_calls lm repr domain pages) = []
  /\ filter is_schema (extraction_calls lm repr domain pages) = [].
Proof.
  induction pages as [|p pages (IH1 & IH2 & IH3)]; simpl; [now repeat split|].
  unfold extraction_calls in *. rewrite IH1, IH2, IH3.
  now repeat split.
Qed.

Lemma extract_each_value (domain : string) (pages : list Page) :
  value (extract_each lm repr domain pages)
  = map (fragment lm repr domain) pages.
Proof.
  induction pages as [|p pages IH]; [reflexivity|].
  cbn [extract_each map]. rewrite !value_bind. rewrite IH. reflexivity.
Qed.

Lemma extract_each_calls (domain : string) (pages : list Page) :
  calls (extract_each lm repr domain pages) = extraction_calls lm repr domain pages.
Proof.
  induction pages as [|p pages IH]; [reflexivity|].
  cbn [extract_each]. rewrite !calls_bind. rewrite IH.
  change (calls (ret ?x)) with (@nil LMCall). now rewrite app_nil_r.
Qed.

Lemma merge_loop_value (domain : string) (pages : list Page) (c : string) :
  value (merge_loop lm repr domain pages c)
  = fold_left (merge_step lm repr domain) pages c.
Proof.
  revert c. induction pages as [|p pages IH]; intros c; [reflexivity|].
  cbn [merge_loop fold_left]. rewrite !value_bind. now rewrite IH.
Qed.

Lemma merge_loop_calls (domain : string) (p : Page) (pages : list Page)
    (c : string) :
  calls (merge_loop lm repr domain (p :: pages) c)
  = (calls (_extract_page_rdf lm repr domain (text p) (url p) (metadata p))
     ++ MergeCall c (fragment lm repr domain p) (url p) domain
     :: calls (merge_loop lm repr domain pages
                 (merge_step lm repr domain c p)))%list.
Proof. cbn [merge_loop]. rewrite !calls_bind. reflexivity. Qed.

Lemma merge_loop_extracts (domain : string) (pages : list Page) (c : string) :
  filter is_extract (calls (merge_loop lm repr domain pages c))
  = extraction_calls lm repr domain pages.
Proof.
  revert c. induction pages as [|p pages IH]; intros c; [reflexivity|].
  rewrite merge_loop_calls, filter_app. simpl filter at 2.
  rewrite IH. reflexivity.
Qed.

Lemma merge_loop_no_schema (domain : string) (pages : list Page) (c : string) :
  filter is_schema (calls (merge_loop lm repr domain pages c)) = [].
Proof.
  revert c. induction pages as [|p pages IH]; intros c; [reflexivity|].
  rewrite merge_loop_calls, filter_app. simpl. apply IH.
Qed.

Lemma merge_loop_merges_length (domain : string) (pages : list Page)
    (c : string) :
  List.length (filter is_merge (calls (merge_loop lm repr domain pages c)))
  = List.length pages.
Proof.
  revert c. induction pages as [|p pages IH]; intros c; [reflexivity|].
  rewrite merge_loop_calls, filter_app. simpl. now rewrite IH.
Qed.

(** The [i]-th merge call of the loop gets the text folded so far and the
    fragment of the [i]-th page. *)
Lemma merge_loop_nth (domain : string) (pages : list Page) (c : string)
    (i : nat) (p : Page) :
  nth_error pages i = Some p ->
  nth_error (filter is_merge (calls (merge_loop lm repr domain pages c))) i
  = Some (MergeCall
            (fold_left (merge_step lm repr domain) (firstn i pages) c)
            (fragment lm repr domain p) (url p) domain).
Proof.
  revert c i. induction pages as [|q pages IH]; intros c i H.
  - destruct i; discriminate.
  - rewrite merge_loop_calls, filter_app. simpl filter.
    destruct i as [|i]; simpl in H |- *.
    + now inversion H.
    + now apply IH.
Qed.

(** [forward] taken apart: what it returns and the calls it makes. *)
Lemma forward_value (domain : string) (pages : list Page) :
  value (forward lm repr domain pages)
  = mkPrediction
      (fold_left (merge_step lm repr domain) pages (seed lm repr domain pages))
      (List.length pages).
Proof.
  unfold forward, seed. rewrite !value_bind. simpl value at 1.
  rewrite merge_loop_value. f_equal. f_equal.
  destruct (Nat.ltb 3 (List.length pages)); [|reflexivity].
  rewrite !value_bind. simpl. now rewrite extract_each_value.
Qed.

Lemma forward_calls (domain : string) (pages : list Page) :
  calls (forward lm repr domain pages)
  = ((if Nat.ltb 3 (List.length pages)
      then extraction_calls lm repr domain (firstn 3 pages)
           ++ [SchemaCall domain
                 (join (LF ++ "---" ++ LF)
                    (map (fragment lm repr domain) (firstn 3 pages)))]
      else [])
     ++ calls (merge_loop lm repr domain pages (seed lm repr domain pages)))%list.
Proof.
  unfold forward, seed. rewrite !calls_bind. simpl calls at 3.
  rewrite app_nil_r.
  destruct (Nat.ltb 3 (List.length pages)); [|reflexivity].
  rewrite !calls_bind, !value_bind. simpl calls at 3. rewrite app_nil_r.
  rewrite extract_each_calls, extract_each_value. reflexivity.
Qed.

Lemma firstn_snoc {A : Type} (l : list A) (i : nat) (x : A) :
  nth_error l i = Some x -> firstn (S i) l = (firstn i l ++ [x])%list.
Proof.
  revert i. induction l as [|y l IH]; intros [|i] H; try discriminate.
  - now inversion H.
  - simpl in H. change (y :: firstn (S i) l = y :: (firstn i l ++ [x])%list).
    now rewrite (IH i H).
Qed.

Lemma existsb_filter {A : Type} (f : A -> bool) (l : list A) :
  existsb f l = match filter f l with [] => false | _ :: _ => true end.
Proof.
  induction l as [|x l IH]; simpl; [reflexivity|].
  destruct (f x); [reflexivity | exact IH].
Qed.

End BuilderFacts.

Section BuilderClaims.
Import Firecrawl Landscape.

(** C1.  With the extraction and merge calls fixed as oracles,
    [IncrementalLandscapeBuilder.forward] handles the pages in the order of
    the input list: for the page at index [i], the canonical text after
    step [i + 1] is the merge oracle applied to the canonical text after
    step [i] and that page's fragment, and this is exactly the [i]-th merge
    call the code makes; there is one merge call per page; the value
    returned is the pair of the left fold over the whole list and the
    number of pages. *)
Theorem forward_folds_pages_in_order :
  forall (lm : Models) (repr : PyMeta -> string) (domain : string)
         (pages : list Page),
    (forall (i : nat) (p : Page),
        nth_error pages i = Some p ->
        canonical_after lm repr domain pages (S i)
        = merger lm (canonical_after lm repr domain pages i)
            (fragment lm repr domain p) (url p) domain
        /\ nth_error
             (filter is_merge (calls (forward lm repr domain pages))) i
           = Some (MergeCall (canonical_after lm repr domain pages i)
                     (fragment lm repr domain p) (url p) domain))
    /\ List.length (filter is_merge (calls (forward lm repr domain pages)))
       = List.length pages
    /\ value (forward lm repr domain pages)
       = mkPrediction
           (fold_left (merge_step lm repr domain) pages
              (canonical_after lm repr domain pages 0))
           (List.length pages)
    /\ canonical_graph (value (forward lm repr domain pages))
       = canonical_after lm repr domain pages (List.length pages).
Proof.
  intros lm repr domain pages.
  assert (Hpre : filter is_merge
            (if Nat.ltb 3 (List.length pages)
             then (extraction_calls lm repr domain (firstn 3 pages)
                   ++ [SchemaCall domain
                         (join (LF ++ "---" ++ LF)
                            (map (fragment lm repr domain) (firstn 3 pages)))])%list
             else []) = []).
  { destruct (Nat.ltb 3 (List.length pages)); [|reflexivity].
    rewrite filter_app.
    destruct (extractions_filter lm repr domain (firstn 3 pages))
      as (_ & -> & _). reflexivity. }
  repeat split.
  - unfold canonical_after. rewrite (firstn_snoc pages i p H).
    rewrite fold_left_app. reflexivity.
  - rewrite forward_calls, filter_app, Hpre. simpl app.
    unfold canonical_after. now apply merge_loop_nth.
  - rewrite forward_calls, filter_app, Hpre. simpl app.
    apply merge_loop_merges_length.
  - apply forward_value.
  - rewrite forward_value. unfold canonical_after.
    now rewrite firstn_all.
Qed.

Lemma forward_folds_pages_in_order_witness :
  nth_error [page_grammarly; page_jasper] 1 = Some page_jasper
  /\ canonical_after stub_models stub_repr "AI Writing Tools"
       [page_grammarly; page_jasper] 2
     = merger stub_models
         (canonical_after stub_models stub_repr "AI Writing Tools"
            [page_grammarly; page_jasper] 1)
         (fragment stub_models stub_repr "AI Writing Tools" page_jasper)
         (url page_jasper) "AI Writing Tools".
Proof.
  split; [reflexivity|].
  exact (proj1 (proj1 (forward_folds_pages_in_order stub_models stub_repr
                         "AI Writing Tools" [page_grammarly; page_jasper])
                  1 page_jasper eq_refl)).
Defined.

(** C2.  The schema-inference call is made exactly when there are more
    than 3 pages.  When it is made it is the only one, it comes after the
    extraction of the first 3 pages, it receives their fragments joined by
    the separator, and the merge loop starts from the text it returns; when
    it is not made the calls are those of the merge loop started from the
    empty string. *)
Theorem schema_inferred_iff_more_than_three :
  forall (lm : Models) (repr : PyMeta -> string) (domain : string)
         (pages : list Page),
    let made := calls (forward lm repr domain pages) in
    let sample :=
      join (LF ++ "---" ++ LF)
        (map (fragment lm repr domain) (firstn 3 pages)) in
    existsb is_schema made = Nat.ltb 3 (List.length pages)
    /\ if Nat.ltb 3 (List.length pages)
       then filter is_schema made = [SchemaCall domain sample]
            /\ made
               = (extraction_calls lm repr domain (firstn 3 pages)
                  ++ SchemaCall domain sample
                  :: calls (merge_loop lm repr domain pages
                              (schema_inferrer lm domain sample)))%list
       else filter is_schema made = []
            /\ made = calls (merge_loop lm repr domain pages "").
Proof.
  intros lm repr domain pages made sample.
  assert (Hmade : made = calls (forward lm repr domain pages)) by reflexivity.
  rewrite forward_calls in Hmade. unfold seed in Hmade. fold sample in Hmade.
  rewrite existsb_filter.
  destruct (Nat.ltb 3 (List.length pages)).
  - assert (Hs : filter is_schema made = [SchemaCall domain sample]).
    { rewrite Hmade, !filter_app.
      destruct (extractions_filter lm repr domain (firstn 3 pages))
        as (_ & _ & ->).
      rewrite merge_loop_no_schema. reflexivity. }
    rewrite Hs. repeat split. rewrite Hmade, <- app_assoc. reflexivity.
  - assert (Hs : filter is_schema made = []).
    { rewrite Hmade. simpl app. apply merge_loop_no_schema. }
    rewrite Hs. repeat split. exact Hmade.
Qed.

(** C9.  The extraction oracle is called [len(pages) + 3] times when there
    are more than 3 pages -- the first 3 pages are extracted once for the
    schema and once more, with all the others, in the merge loop -- and
    [len(pages)] times otherwise. *)
Theorem extraction_calls_counted :
  forall (lm : Models) (repr : PyMeta -> string) (domain : string)
         (pages : list Page),
    let made := filter is_extract (calls (forward lm repr domain pages)) in
    made
    = (if Nat.ltb 3 (List.length pages)
       then extraction_calls lm repr domain (firstn 3 pages ++ pages)
       else extraction_calls lm repr domain pages)
    /\ List.length made
       = (if Nat.ltb 3 (List.length pages)
          then List.length pages + 3
          else List.length pages).
Proof.
  intros lm repr domain pages made.
  assert (Hmade : made
    = (if Nat.ltb 3 (List.length pages)
       then extraction_calls lm repr domain (firstn 3 pages ++ pages)
       else extraction_calls lm repr domain pages)).
  { unfold made. rewrite forward_calls, filter_app, merge_loop_extracts.
    destruct (Nat.ltb 3 (List.length pages)); [|reflexivity].
    rewrite filter_app.
    destruct (extractions_filter lm repr domain (firstn 3 pages))
      as (-> & _ & _).
    simpl filter. rewrite app_nil_r.
    unfold extraction_calls. now rewrite flat_map_app. }
  split; [exact Hmade|]. rewrite Hmade.
  destruct (Nat.ltb 3 (List.length pages)) eqn:E.
  - rewrite extractions_length, length_app, firstn_length_le; [lia|].
    apply Nat.ltb_lt in E. lia.
  - apply extractions_length.
Qed.

End BuilderClaims.

(** ** landscape.py: crawling *)
Section CrawlFacts.
Import Firecrawl Landscape.

Variable scrape_url : string -> ScrapeOutcome.

Lemma crawl_loop_acc (urls : list string) (pages : list Page)
    (out : list Printed) :
  crawl_loop scrape_url urls pages out
  = ((pages ++ fst (crawl_loop scrape_url urls [] []))%list,
     (out ++ snd (crawl_loop scrape_url urls [] []))%list).
Proof.
  revert pages out. induction urls as [|u urls IH]; intros pages out; simpl.
  - now rewrite !app_nil_r.
  - destruct (crawl_url scrape_url u) as [new_pages printed].
    rewrite IH, (IH new_pages printed). simpl. now rewrite !app_assoc.
Qed.

Lemma crawl_cons (u : string) (urls : list string) :
  crawl_pages_with_firecrawl scrape_url (u :: urls)
  = ((fst (crawl_url scrape_url u)
      ++ fst (crawl_pages_with_firecrawl scrape_url urls))%list,
     (snd (crawl_url scrape_url u)
      ++ snd (crawl_pages_with_firecrawl scrape_url urls))%list).
Proof.
  unfold crawl_pages_with_firecrawl. simpl.
  destruct (crawl_url scrape_url u) as [new_pages printed].
  now rewrite crawl_loop_acc.
Qed.

Lemma text_or_truthy (a b : option string) :
  text_truthy (text_or a b) = text_truthy a || text_truthy b.
Proof. unfold text_or. destruct (text_truthy a) eqn:E; [exact E | reflexivity]. Qed.

(** One URL: at most one page, under this URL, exactly when the fetch did
    not fail; the URL is announced once; a failure leaves a diagnostic. *)
Lemma crawl_url_pages (u : string) :
  map url (fst (crawl_url scrape_url u))
  = if fetched (scrape_url u) then [u] else [].
Proof.
  unfold crawl_url, fetched. destruct (scrape_url u) as [name msg | r];
    [reflexivity|].
  destruct r as [|md meta|d|hd]; simpl; try reflexivity.
  - destruct (text_truthy md); reflexivity.
  - rewrite !text_or_truthy, orb_assoc.
    destruct (text_truthy (rd_markdown d) || text_truthy (rd_content d)
              || text_truthy (data_markdown (rd_data d))); reflexivity.
Qed.

Lemma crawl_url_announced (u : string) :
  filter is_crawling (snd (crawl_url scrape_url u)) = [Crawling u].
Proof.
  unfold crawl_url. destruct (scrape_url u) as [name msg | r];
    [reflexivity|].
  destruct r as [|md meta|d|hd]; simpl; try reflexivity.
  - destruct (text_truthy md); reflexivity.
  - destruct (text_truthy _); reflexivity.
  - destruct hd; reflexivity.
Qed.

Lemma crawl_url_diagnostic (u : string) :
  fetched (scrape_url u) = false ->
  exists line, In line (snd (crawl_url scrape_url u))
               /\ diagnostic_for u line.
Proof.
  unfold crawl_url, fetched, diagnostic_for.
  destruct (scrape_url u) as [name msg | r].
  - intros _. exists (ErrorCrawling u name msg). split; [simpl; tauto|].
    do 4 right. now exists name, msg.
  - destruct r as [|md meta|d|hd]; simpl; intros H.
    + exists (WarnEmpty u). split; [simpl; tauto | tauto].
    + rewrite H. exists (WarnNoMarkdown u). split; [simpl; tauto | tauto].
    + rewrite !text_or_truthy, orb_assoc, H.
      exists (WarnNoContent u). split; [simpl; tauto | tauto].
    + exists (WarnUnexpected u). split; [simpl; tauto | tauto].
Qed.

Lemma failure_iff_not_fetched (o : ScrapeOutcome) :
  FetchFailure o <-> fetched o = false.
Proof.
  split.
  - intros [name msg | | r H]; [reflexivity | reflexivity | exact H].
  - destruct o as [name msg | r]; intros H; [constructor|].
    now apply missing_content.
Qed.

Lemma crawl_pages_urls (urls : list string) :
  map url (fst (crawl_pages_with_firecrawl scrape_url urls))
  = filter (fun u => fetched (scrape_url u)) urls.
Proof.
  induction urls as [|u urls IH]; [reflexivity|].
  rewrite crawl_cons. cbn [fst filter]. rewrite map_app, IH, crawl_url_pages.
  destruct (fetched (scrape_url u)); reflexivity.
Qed.

Lemma crawl_announces_all (urls : list string) :
  filter is_crawling (snd (crawl_pages_with_firecrawl scrape_url urls))
  = map Crawling urls.
Proof.
  induction urls as [|u urls IH]; [reflexivity|].
  rewrite crawl_cons. cbn [snd map].
  now rewrite filter_app, IH, crawl_url_announced.
Qed.

Lemma crawl_diagnoses (urls : list string) (u : string) :
  In u urls -> fetched (scrape_url u) = false ->
  exists line, In line (snd (crawl_pages_with_firecrawl scrape_url urls))
               /\ diagnostic_for u line.
Proof.
  induction urls as [|v urls IH]; [contradiction|].
  intros [-> | Hin] Hf; rewrite crawl_cons; cbn [snd].
  - destruct (crawl_url_diagnostic u Hf) as (line & Hl & Hd).
    exists line. split; [apply in_or_app; now left | exact Hd].
  - destruct (IH Hin Hf) as (line & Hl & Hd).
    exists line. split; [apply in_or_app; now right | exact Hd].
Qed.

End CrawlFacts.

Section CrawlClaims.
Import Firecrawl Landscape.

(** C4.  A failed fetch -- the client raises, the result is empty, or the
    result has no content -- never stops [crawl_pages_with_firecrawl]:
    every URL of the list is attempted, in order; a URL whose fetch failed
    contributes no page and leaves a warning or error line; the pages
    returned are, in order, one per URL whose fetch did not fail, so their
    number is the number of successful fetches. *)
Theorem crawl_skips_failed_fetches :
  forall (scrape_url : string -> ScrapeOutcome) (urls : list string),
    let pages := fst (crawl_pages_with_firecrawl scrape_url urls) in
    let out := snd (crawl_pages_with_firecrawl scrape_url urls) in
    let succeeded := filter (fun u => fetched (scrape_url u)) urls in
    (forall o, FetchFailure o <-> fetched o = false)
    /\ filter is_crawling out = map Crawling urls
    /\ map url pages = succeeded
    /\ List.length pages = List.length succeeded
    /\ (forall u, In u urls -> FetchFailure (scrape_url u) ->
          ~ In u (map url pages)
          /\ exists line, In line out /\ diagnostic_for u line).
Proof.
  intros scrape_url urls pages out succeeded.
  assert (Hp : map url pages = succeeded) by apply crawl_pages_urls.
  split; [apply failure_iff_not_fetched|].
  split; [apply crawl_announces_all|].
  split; [exact Hp|].
  split; [now rewrite <- Hp, length_map|].
  intros u Hin Hf. apply failure_iff_not_fetched in Hf. split.
  - rewrite Hp. unfold succeeded. rewrite filter_In. intros [_ H]. congruence.
  - now apply crawl_diagnoses.
Qed.

Lemma crawl_skips_failed_fetches_witness :
  let urls := ["https://grammarly.com"; "https://down.example";
               "https://empty.example"; "https://jasper.ai"] in
  In "https://down.example" urls
  /\ FetchFailure (stub_scrape "https://down.example")
  /\ ~ In "https://down.example"
         (map url (fst (crawl_pages_with_firecrawl stub_scrape urls)))
  /\ List.length (fst (crawl_pages_with_firecrawl stub_scrape urls)) = 2.
Proof.
  cbv zeta.
  assert (Hin : In "https://down.example"
                  ["https://grammarly.com"; "https://down.example";
                   "https://empty.example"; "https://jasper.ai"])
    by (simpl; tauto).
  assert (Hf : FetchFailure (stub_scrape "https://down.example"))
    by (vm_compute; constructor).
  destruct (crawl_skips_failed_fetches stub_scrape
              ["https://grammarly.com"; "https://down.example";
               "https://empty.example"; "https://jasper.ai"])
    as (_ & _ & _ & Hlen & Hskip).
  split; [exact Hin|]. split; [exact Hf|].
  split; [exact (proj1 (Hskip _ Hin Hf)) | exact Hlen].
Defined.

End CrawlClaims.

(** ** kg-openai.py: claims *)
Section SlugClaims.
Import KgOpenai.

(** C7.  [slugify("AI Writing Tools!")] is ["ai_writing_tools"]; for every
    input, [slugify] yields the lower-cased text with each maximal run of
    characters outside [a-zA-Z0-9] that separates two alphanumeric runs
    replaced by one underscore, and the result neither starts nor ends
    with an underscore. *)
Theorem slugify_lowercases_and_collapses :
  slugify "AI Writing Tools!" = "ai_writing_tools"
  /\ forall value : string,
       slugify value = join "_" (alnum_runs (lower value))
       /\ starts_in is_underscore (slugify value) = false
       /\ ends_in is_underscore (slugify value) = false.
Proof.
  split; [vm_compute; reflexivity|].
  intros value. split; [apply slugify_runs|].
  unfold slugify. apply strip_ends.
Qed.

(** C6, at the input where the code leaves the claim: an object that holds
    a TAB and no space contains white space, yet the node built for it is
    a URI made of its slug, not a literal.  In general the object becomes a
    literal exactly when it holds a space character; subject and predicate
    always become URIs of their slugs. *)
Theorem tab_object_becomes_uri :
  let t := mkTriple "Paris" "twinned with"
             ("New" ++ String "009"%char "York") in
  has_whitespace (object t) = true
  /\ o_node "http://example.org/" t = URIRef "http://example.org/new_york"
  /\ forall (base : string) (t' : Triple),
       s_uri base t' = URIRef (base ++ slugify (subject t'))
       /\ p_uri base t' = URIRef (base ++ slugify (predicate t'))
       /\ is_literal (o_node base t') = mem_char " "%char (object t').
Proof.
  split; [vm_compute; reflexivity|].
  split; [vm_compute; reflexivity|].
  intros base t'. repeat split.
  unfold o_node. destruct (mem_char " "%char (object t')); reflexivity.
Qed.

End SlugClaims.

(** ** kg-anthropic.py: claims *)
Section ExtractorClaims.
Import KgAnthropic.

(** C3, as stated, fails: when the model answers with the empty text and
    the parser accepts it, the prediction carries a graph, no error, and an
    empty fragment. *)
Lemma empty_fragment_parses :
  let r := forward TripleStore silent_extractor empty_document_parser
             "Climate Change" "" in
  ~ ((rdf_turtle r <> "" /\ graph r <> None) \/ error r <> None).
Proof.
  simpl. intros [[H _] | H]; apply H; reflexivity.
Qed.

(** C3, amended.  For every theme and text the extractor returns the raw
    fragment text (possibly empty) together with either the parsed graph
    and no error, or no graph and the parser's error message -- never
    neither; a parse failure is returned, not raised. *)
Theorem forward_graph_or_error :
  forall (Graph : Type) (extractor : string -> string -> string)
         (parse : string -> ParseOutcome Graph) (theme text : string),
    let r := forward Graph extractor parse theme text in
    rdf_turtle r = extractor theme text
    /\ match parse (extractor theme text) with
       | Parsed g => graph r = Some g /\ error r = None
       | ParseError msg => graph r = None /\ error r = Some msg
       end
    /\ ~ (graph r = None /\ error r = None).
Proof.
  intros Graph extractor parse theme text. unfold forward.
  destruct (parse (extractor theme text)) as [g | msg]; simpl;
    (split; [reflexivity|]); (split; [now split|]);
    intros [H1 H2]; discriminate.
Qed.

End ExtractorClaims.

(** ** landscape_schema.py: the pipeline *)
Section PipelineFacts.
Import Firecrawl LandscapeSchema.

Variable lm : Models.

Lemma bind_ok {A B : Type} (m : IO A) (k : A -> IO B) (a : A) :
  fst m = Ok a ->
  bind m k = (fst (k a), (snd m ++ snd (k a))%list).
Proof. unfold bind. intros ->. destruct (k a); reflexivity. Qed.

Lemma bind_raise {A B : Type} (m : IO A) (k : A -> IO B) (e : string) :
  fst m = Raise e -> bind m k = (Raise e, snd m).
Proof. unfold bind. now intros ->. Qed.

(** *** The instances dict *)

Lemma dict_get_set_same (k v : string) (d : Dict) :
  dict_get k (dict_set k v d) = Some v.
Proof.
  induction d as [|[k' v'] d IH]; simpl.
  - now rewrite String.eqb_refl.
  - destruct (String.eqb k k') eqn:E; simpl.
    + now rewrite String.eqb_refl.
    + now rewrite E.
Qed.

Lemma dict_get_set_other (k k' v : string) (d : Dict) :
  k <> k' -> dict_get k (dict_set k' v d) = dict_get k d.
Proof.
  intros Hne. induction d as [|[k2 v2] d IH]; simpl.
  - apply String.eqb_neq in Hne. now rewrite Hne.
  - destruct (String.eqb k' k2) eqn:E; simpl.
    + apply String.eqb_eq in E. subst k2.
      apply String.eqb_neq in Hne. now rewrite Hne.
    + destruct (String.eqb k k2); [reflexivity | exact IH].
Qed.

Lemma dict_set_fresh (k v : string) (d : Dict) :
  ~ In k (map fst d) -> dict_set k v d = (d ++ [(k, v)])%list.
Proof.
  induction d as [|[k' v'] d IH]; simpl; intros H; [reflexivity|].
  destruct (String.eqb_spec k k') as [->|Hne]; [exfalso; tauto|].
  rewrite IH; [reflexivity | tauto].
Qed.

Lemma instances_loop_run (schema domain : string) (pages : list Page)
    (d : Dict) :
  instances_loop lm schema domain pages d
  = (Ok (fold_left (store_instance lm schema domain) pages d),
     map (fun p => InstanceExtraction schema domain (text p) (url p)) pages).
Proof.
  revert d. induction pages as [|p pages IH]; intros d; [reflexivity|].
  cbn [instances_loop]. unfold extract_instances.
  rewrite (bind_ok _ _ (instance_output lm schema domain p)) by reflexivity.
  rewrite IH. reflexivity.
Qed.

Lemma stored_elsewhere (schema domain u : string) (pages : list Page)
    (d : Dict) :
  existsb (fun q => String.eqb (url q) u) pages = false ->
  dict_get u (fold_left (store_instance lm schema domain) pages d) = dict_get u d.
Proof.
  revert d. induction pages as [|q pages IH]; intros d H; [reflexivity|].
  simpl in H. apply orb_false_elim in H as [Hq H].
  simpl. rewrite (IH _ H). unfold store_instance.
  apply dict_get_set_other. apply String.eqb_neq.
  now rewrite String.eqb_sym.
Qed.

(** The text stored under the URL of a page that shares it with no other
    page of the run is that page's own output. *)
Lemma stored_own_output (schema domain : string) (pages : list Page)
    (d : Dict) (p : Page) :
  In p pages ->
  (forall q, In q pages -> url q = url p -> q = p) ->
  dict_get (url p) (fold_left (store_instance lm schema domain) pages d)
  = Some (instance_output lm schema domain p).
Proof.
  revert d. induction pages as [|q pages IH]; intros d Hin Hu; [contradiction|].
  simpl.
  destruct (existsb (fun q' => String.eqb (url q') (url p)) pages) eqn:E.
  - apply existsb_exists in E as (q' & Hq' & Eq').
    apply String.eqb_eq in Eq'.
    assert (q' = p) by (apply Hu; [now right | exact Eq']). subst q'.
    apply IH; [exact Hq'|]. intros q0 H0. apply Hu. now right.
  - rewrite (stored_elsewhere _ _ _ _ _ E).
    destruct Hin as [-> | Hin].
    + unfold store_instance. apply dict_get_set_same.
    + exfalso. assert (Hf : existsb (fun q' => String.eqb (url q') (url p)) pages = true).
      { apply existsb_exists. exists p. split; [exact Hin|].
        apply String.eqb_refl. }
      congruence.
Qed.

(** With pairwise distinct URLs the dict lists the pages in their order. *)
Lemma stored_in_order (schema domain : string) (pages : list Page)
    (d : Dict) :
  NoDup (map fst d ++ map url pages) ->
  fold_left (store_instance lm schema domain) pages d
  = (d ++ instances_of lm schema domain pages)%list.
Proof.
  unfold instances_of.
  revert d. induction pages as [|p pages IH]; intros d H; simpl.
  - now rewrite app_nil_r.
  - unfold store_instance at 2. rewrite dict_set_fresh.
    + rewrite IH; [now rewrite <- app_assoc|].
      rewrite map_app. simpl. rewrite <- app_assoc. exact H.
    + apply NoDup_remove_2 in H. intros Hin. apply H.
      apply in_or_app. now left.
Qed.

(** *** [forward] *)

Lemma page_summaries_ok (pages : list Page) :
  Forall (fun p => text p <> None) pages ->
  exists summaries, page_summaries pages = Ok summaries.
Proof.
  induction 1 as [|p pages Hp _ [ss IH]]; [now exists []|].
  simpl. unfold page_summary. destruct (text p) as [t|]; [|contradiction].
  rewrite IH. now eexists.
Qed.

Lemma forward_run (domain : string) (pages : list Page)
    (summaries : list string) :
  page_summaries pages = Ok summaries ->
  let content := join (NL ++ NL ++ "---PAGE---" ++ NL ++ NL) summaries in
  let s := schema_extractor lm domain content in
  forward lm domain pages
  = (Ok (mkPrediction s (fold_left (store_instance lm s domain) pages [])),
     SchemaExtraction domain content
     :: map (fun p => InstanceExtraction s domain (text p) (url p)) pages).
Proof.
  intros H content s. unfold forward, extract_schema.
  rewrite (bind_ok _ _ s).
  - rewrite (bind_ok (instances_loop lm s domain pages []) _
               (fold_left (store_instance lm s domain) pages []))
      by (now rewrite instances_loop_run).
    rewrite instances_loop_run.
    rewrite (bind_ok _ _ summaries) by exact H.
    cbn. now rewrite app_nil_r.
  - rewrite (bind_ok _ _ summaries) by exact H. reflexivity.
Qed.

Lemma forward_ok_summaries (domain : string) (pages : list Page)
    (r : Prediction) (events : list Event) :
  forward lm domain pages = (Ok r, events) ->
  exists summaries, page_summaries pages = Ok summaries.
Proof.
  destruct (page_summaries pages) as [ss | e] eqn:E; [now eexists|].
  unfold forward, extract_schema.
  rewrite (bind_raise _ _ e); [discriminate|].
  now rewrite (bind_raise _ _ e).
Qed.

(** *** Files *)

Variable open_file : string -> Result string.

Lemma write_file_run (path content : string) :
  write_file open_file path content
  = (unless_failed (first_failure open_file [(path, content)]) tt,
     written open_file [(path, content)]).
Proof.
  unfold write_file. cbn [written first_failure].
  now destruct (open_file path).
Qed.

Lemma first_failure_app (a b : list (string * string)) :
  first_failure open_file (a ++ b)
  = match first_failure open_file a with
    | None => first_failure open_file b
    | Some e => Some e
    end.
Proof.
  induction a as [|[path content] a IH]; [reflexivity|].
  cbn [app first_failure]. now destruct (open_file path).
Qed.

Lemma written_app (a b : list (string * string)) :
  written open_file (a ++ b)
  = (written open_file a
     ++ match first_failure open_file a with
        | None => written open_file b
        | Some _ => []
        end)%list.
Proof.
  induction a as [|[path content] a IH]; [reflexivity|].
  cbn [app written first_failure].
  destruct (open_file path); [|reflexivity].
  cbn [app]. now rewrite IH.
Qed.

Lemma written_all (outputs : list (string * string)) :
  first_failure open_file outputs = None ->
  written open_file outputs
  = map (fun o => WriteFile (fst o) (snd o)) outputs.
Proof.
  induction outputs as [|[path content] outputs IH]; [reflexivity|].
  cbn [first_failure written map fst snd].
  destruct (open_file path); [|discriminate].
  intros H. now rewrite (IH H).
Qed.

Lemma written_are_writes (outputs : list (string * string)) :
  Forall (fun e => is_write e = true) (written open_file outputs).
Proof.
  induction outputs as [|[path content] outputs IH]; [constructor|].
  cbn [written]. destruct (open_file path); now constructor.
Qed.

Lemma save_instances_run (output_dir schema_path : string) (d : Dict) :
  let outputs :=
    map (fun e => (path_join output_dir (instance_file_name (fst e)),
                   instance_content (basename schema_path) (snd e))) d in
  save_instances open_file output_dir schema_path d
  = (unless_failed (first_failure open_file outputs) tt,
     written open_file outputs).
Proof.
  cbv zeta. induction d as [|[u rdf] d IH]; [reflexivity|].
  cbn [save_instances map first_failure written fst snd].
  unfold write_file.
  destruct (open_file (path_join output_dir (instance_file_name u))).
  - rewrite (bind_ok _ _ tt) by reflexivity. rewrite IH. reflexivity.
  - now rewrite (bind_raise _ _ exn) by reflexivity.
Qed.

(** The writes that end a run: the schema file, the instance files, the
    merged file. *)
Lemma save_outputs_run (output_dir domain s : string) (d : Dict)
    (summary : Summary) :
  let schema_path := path_join output_dir (schema_file_name domain) in
  let outputs := output_files output_dir domain s d in
  (_ <- write_file open_file schema_path s ;;
   _ <- save_instances open_file output_dir schema_path d ;;
   _ <- write_file open_file (path_join output_dir (merged_file_name domain))
          (merged_content (basename schema_path) d) ;;
   ret summary)
  = (unless_failed (first_failure open_file outputs) summary,
     written open_file outputs).
Proof.
  cbv zeta. unfold output_files.
  set (schema_path := path_join output_dir (schema_file_name domain)).
  set (merged_path := path_join output_dir (merged_file_name domain)).
  set (merged := merged_content (basename schema_path) d).
  rewrite !write_file_run, save_instances_run. cbv zeta.
  set (saved := map _ d).
  change ((schema_path, s) :: saved ++ [(merged_path, merged)])%list
    with ([(schema_path, s)] ++ saved ++ [(merged_path, merged)])%list.
  rewrite !written_app, !first_failure_app.
  cbn [first_failure written].
  destruct (open_file schema_path);
    destruct (first_failure open_file saved);
    destruct (open_file merged_path);
    unfold bind, ret, unless_failed; cbn [fst snd app];
    rewrite ?app_nil_r; reflexivity.
Qed.

(** *** The files left behind *)




End PipelineFacts.

(** ** landscape_schema.py: the text of the merged file *)
Section LinesFacts.
Import LandscapeSchema.

Lemma mem_char_app (c : ascii) (a b : string) :
  mem_char c (a ++ b) = mem_char c a || mem_char c b.
Proof.
  induction a as [|x a IH]; simpl; [reflexivity|].
  now rewrite IH, orb_assoc.
Qed.







Lemma concat_empty_cons (x : string) (l : list string) :
  String.concat "" (x :: l) = x ++ String.concat "" l.
Proof. destruct l; simpl; [now rewrite append_nil_r | reflexivity]. Qed.


Lemma concat_closed_lines (ls : list string) :
  String.concat "" (map (fun line => line ++ NL) ls) = unlines ls.
Proof.
  induction ls as [|l ls IH]; [reflexivity|].
  cbn [map]. rewrite concat_empty_cons, IH. simpl. now rewrite append_assoc.
Qed.





















(** *** File names *)





Lemma basename_from_app (acc a b : string) :
  basename_from acc (a ++ b) = basename_from (basename_from acc a) b.
Proof.
  revert acc. induction a as [|c a IH]; intros acc; [reflexivity|].
  simpl. destruct (is_slash c); apply IH.
Qed.

Lemma basename_from_slash_end (acc a : string) :
  ends_in is_slash a = true -> basename_from acc a = "".
Proof.
  revert acc. induction a as [|c a IH]; intros acc H; [discriminate|].
  destruct a as [|d a].
  - simpl in H |- *. now rewrite H.
  - change (ends_in is_slash (String d a) = true) in H.
    cbn [basename_from]. destruct (is_slash c); now apply IH.
Qed.

Lemma basename_from_restart (acc b : string) :
  starts_in is_slash b = true -> basename_from acc b = basename b.
Proof.
  destruct b as [|c b]; [discriminate|]. simpl. unfold basename. simpl.
  now intros ->.
Qed.

(** [os.path.basename(os.path.join(a, b))] is the base name of [b]. *)
Lemma basename_path_join (a b : string) :
  basename (path_join a b) = basename b.
Proof.
  unfold path_join. destruct (starts_in is_slash b) eqn:Eb; [reflexivity|].
  destruct a as [|c a]; [reflexivity|].
  unfold basename.
  destruct (ends_in is_slash (String c a)) eqn:Ea; rewrite !basename_from_app.
  - now rewrite (basename_from_slash_end "" _ Ea).
  - reflexivity.
Qed.



End LinesFacts.

(** ** landscape_schema.py: a whole run *)
Section RunFacts.
Import Firecrawl LandscapeSchema.

Variable lm : Models.
Variable scrape_url : string -> ScrapeOutcome.
Variable open_file : string -> Result string.

(** A run on at least one page, all pages having text: the model calls,
    then the writes up to the first file that cannot be opened. *)
Lemma build_run (domain : string) (urls : list string) (output_dir : string)
    (summaries : list string) :
  let pages := crawl_pages_with_firecrawl scrape_url urls in
  let content := join (NL ++ NL ++ "---PAGE---" ++ NL ++ NL) summaries in
  let s := schema_extractor lm domain content in
  let d := fold_left (store_instance lm s domain) pages [] in
  let outputs := output_files output_dir domain s d in
  pages <> [] ->
  page_summaries pages = Ok summaries ->
  build_landscape_schema_and_instances lm scrape_url open_file domain urls
    output_dir
  = (unless_failed (first_failure open_file outputs)
       (mkSummary s d (List.length pages)),
     (MakeDirs output_dir
      :: SchemaExtraction domain content
      :: map (fun p => InstanceExtraction s domain (text p) (url p)) pages
      ++ written open_file outputs)%list).
Proof.
  intros pages content s d outputs Hne Hs.
  unfold build_landscape_schema_and_instances.
  rewrite (bind_ok _ _ tt) by reflexivity.
  fold pages. clearbody pages.
  pose proof (forward_run lm domain pages summaries Hs) as Hf.
  cbv zeta in Hf. fold content in Hf. fold s in Hf. fold d in Hf.
  destruct pages as [|p0 ps] eqn:Ep; [contradiction|].
  rewrite <- Ep in *. clear Hne.
  rewrite (bind_ok _ _ (mkPrediction s d)) by (now rewrite Hf).
  rewrite Hf. cbn [schema instances fst snd].
  rewrite save_outputs_run. cbv zeta. fold outputs.
  cbn [fst snd emit app]. reflexivity.
Qed.

End RunFacts.

Section PipelineClaims.
Import Firecrawl LandscapeSchema.

(** C10.  When crawling yields no page,
    [build_landscape_schema_and_instances] returns the record with the
    empty schema, no instances and zero pages processed; the one thing it
    has done by then is to create the output directory: no model call, no
    file written. *)
Theorem no_pages_only_makes_directory :
  forall (lm : Models) (scrape_url : string -> ScrapeOutcome)
         (open_file : string -> Result string)
         (domain : string) (urls : list string) (output_dir : string),
    crawl_pages_with_firecrawl scrape_url urls = [] ->
    build_landscape_schema_and_instances lm scrape_url open_file domain urls
      output_dir
    = (Ok (mkSummary "" [] 0), [MakeDirs output_dir]).
Proof.
  intros lm scrape_url open_file domain urls output_dir H.
  unfold build_landscape_schema_and_instances. rewrite H. reflexivity.
Qed.

Lemma no_pages_only_makes_directory_witness :
  crawl_pages_with_firecrawl failing_scrape
    ["https://grammarly.com"; "https://jasper.ai"] = []
  /\ build_landscape_schema_and_instances stub_models failing_scrape open_any
       "AI Writing Tools" ["https://grammarly.com"; "https://jasper.ai"]
       "output"
     = (Ok (mkSummary "" [] 0), [MakeDirs "output"]).
Proof.
  split; [reflexivity|].
  apply (no_pages_only_makes_directory stub_models failing_scrape open_any
           "AI Writing Tools" ["https://grammarly.com"; "https://jasper.ai"]
           "output").
  reflexivity.
Defined.




(** C8, as stated, fails in two ways.  With the schema held fixed, a page
    accompanied by a later page of the same URL and another text loses its
    place: the text stored under the URL is the later page's.  With the
    pages in another order, the schema call gets another prompt; when its
    answer follows the prompt, the instance call of a page gets another
    schema and may give another text. *)
Lemma instance_text_depends_on_other_pages :
  (exists (r1 r2 : Prediction) (events1 events2 : list Event),
      forward reading_models "AI Writing Tools" [page_jasper]
      = (Ok r1, events1)
      /\ forward reading_models "AI Writing Tools"
           [page_jasper; page_jasper_later]
         = (Ok r2, events2)
      /\ schema r1 = schema r2
      /\ In page_jasper [page_jasper; page_jasper_later]
      /\ dict_get (url page_jasper) (instances r1)
         <> dict_get (url page_jasper) (instances r2))
  /\ (exists (r1 r2 : Prediction) (events1 events2 : list Event),
         forward echo_models "AI Writing Tools" [page_grammarly; page_jasper]
         = (Ok r1, events1)
         /\ forward echo_models "AI Writing Tools"
              [page_jasper; page_grammarly]
            = (Ok r2, events2)
         /\ Permutation [page_grammarly; page_jasper]
              [page_jasper; page_grammarly]
         /\ dict_get (url page_jasper) (instances r1)
            <> dict_get (url page_jasper) (instances r2)).
Proof.
  split.
  - do 4 eexists. split; [vm_compute; reflexivity|].
    split; [vm_compute; reflexivity|].
    split; [reflexivity|]. split; [now left | vm_compute; discriminate].
  - do 4 eexists. split; [vm_compute; reflexivity|].
    split; [vm_compute; reflexivity|].
    split; [apply perm_swap | vm_compute; discriminate].
Qed.

(** C8, amended.  With the instance-extraction call a function of its
    arguments, phase 2 run with a given schema on a list of pages makes one
    call per page, in page order, with the arguments (schema, domain, page
    content, page URL) and nothing else.  So for two lists of pages, in
    any order and with any other pages, and a page of both whose URL no
    other page of either list has, the text stored under the page's URL is
    the same in the two runs of phase 2 with one schema: what the call
    returns for the page.  Two runs of the whole pipeline store these
    texts whenever their schema calls returned that same schema. *)
Theorem instance_text_fixed_by_schema_and_page :
  forall (lm : Models) (s domain : string) (pages1 pages2 : list Page)
         (p : Page),
    In p pages1 -> In p pages2 ->
    (forall q, In q pages1 -> url q = url p -> q = p) ->
    (forall q, In q pages2 -> url q = url p -> q = p) ->
    let out := instance_extractor lm s domain (text p) (url p) in
    let call_for := fun q : Page =>
      InstanceExtraction s domain (text q) (url q) in
    exists d1 d2 : Dict,
      instances_loop lm s domain pages1 [] = (Ok d1, map call_for pages1)
      /\ instances_loop lm s domain pages2 [] = (Ok d2, map call_for pages2)
      /\ dict_get (url p) d1 = Some out
      /\ dict_get (url p) d2 = Some out
      /\ (forall r1 events1, forward lm domain pages1 = (Ok r1, events1) ->
            schema r1 = s -> instances r1 = d1)
      /\ (forall r2 events2, forward lm domain pages2 = (Ok r2, events2) ->
            schema r2 = s -> instances r2 = d2).
Proof.
  intros lm s domain pages1 pages2 p Hp1 Hp2 Hu1 Hu2 out call_for.
  assert (Hfw : forall pages r events,
            forward lm domain pages = (Ok r, events) -> schema r = s ->
            instances r = fold_left (store_instance lm s domain) pages []).
  { intros pages r events H Hs.
    destruct (forward_ok_summaries lm domain pages r events H) as [ss E].
    rewrite (forward_run lm domain pages ss E) in H.
    injection H as <- _. cbn [schema instances] in *. now rewrite Hs. }
  exists (fold_left (store_instance lm s domain) pages1 []),
         (fold_left (store_instance lm s domain) pages2 []).
  rewrite !instances_loop_run.
  split; [reflexivity|]. split; [reflexivity|].
  split; [now apply stored_own_output|].
  split; [now apply stored_own_output|].
  split; intros r events; apply Hfw.
Qed.

Lemma instance_text_fixed_by_schema_and_page_witness :
  exists d1 d2 : Dict,
    fst (instances_loop reading_models "# schema" "AI Writing Tools"
           [page_grammarly; page_jasper] []) = Ok d1
    /\ fst (instances_loop reading_models "# schema" "AI Writing Tools"
              [page_copy; page_jasper; page_grammarly] []) = Ok d2
    /\ dict_get "https://jasper.ai" d1
       = Some "<https://jasper.ai> :text 'Content generation' ."
    /\ dict_get "https://jasper.ai" d2
       = Some "<https://jasper.ai> :text 'Content generation' .".
Proof.
  destruct (instance_text_fixed_by_schema_and_page reading_models "# schema"
              "AI Writing Tools" [page_grammarly; page_jasper]
              [page_copy; page_jasper; page_grammarly] page_jasper)
    as (d1 & d2 & H1 & H2 & Hd1 & Hd2 & _).
  - simpl. tauto.
  - simpl. tauto.
  - intros q [<- | [<- | []]] Hq; [discriminate Hq | reflexivity].
  - intros q [<- | [<- | [<- | []]]] Hq;
      [discriminate Hq | reflexivity | discriminate Hq].
  - exists d1, d2. rewrite H1, H2.
    split; [reflexivity|]. split; [reflexivity|].
    split; [exact Hd1 | exact Hd2].
Defined.

End PipelineClaims.

(* ================================================================== *)
(** * Part III -- further properties of the code                       *)
(* ================================================================== *)

(** ** kg-openai.py: the shape of slugs *)
Section SlugShape.
Import KgOpenai.

Lemma lowered_alnum (c : ascii) :
  is_alnum (lower_char c) = true -> lower_alnum (lower_char c) = true.
Proof. destruct c as [[] [] [] [] [] [] [] []]; vm_compute; congruence. Qed.

Lemma lower_alnum_facts (c : ascii) :
  lower_alnum c = true ->
  lower_char c = c /\ is_alnum c = true /\ is_underscore c = false.
Proof.
  destruct c as [[] [] [] [] [] [] [] []]; vm_compute; intros H;
    repeat split; congruence.
Qed.

Lemma slug_char_lower (c : ascii) : slug_char c = true -> lower_char c = c.
Proof.
  destruct c as [[] [] [] [] [] [] [] []]; vm_compute; intros H;
    congruence.
Qed.

Lemma slug_char_cases (c : ascii) :
  slug_char c = true -> lower_alnum c = true \/ c = underscore.
Proof.
  unfold slug_char. fold (lower_alnum c). intros H.
  apply orb_true_iff in H as [H | H]; [now left | right].
  now apply Ascii.eqb_eq in H.
Qed.

Lemma all_chars_app (p : ascii -> bool) (a b : string) :
  all_chars p (a ++ b) = all_chars p a && all_chars p b.
Proof.
  induction a as [|c a IH]; simpl; [reflexivity|].
  now rewrite IH, andb_assoc.
Qed.

Lemma all_chars_weaken (p q : ascii -> bool) (s : string) :
  (forall c, p c = true -> q c = true) ->
  all_chars p s = true -> all_chars q s = true.
Proof.
  intros Hpq. induction s as [|c s IH]; simpl; [reflexivity|].
  intros H. apply andb_prop in H as [Hc Hs].
  now rewrite (Hpq c Hc), (IH Hs).
Qed.

Lemma lower_alnum_slug_char (c : ascii) :
  lower_alnum c = true -> slug_char c = true.
Proof. unfold slug_char. fold (lower_alnum c). now intros ->. Qed.

Lemma lower_slug_chars (s : string) :
  all_chars slug_char s = true -> lower s = s.
Proof.
  induction s as [|c s IH]; simpl; [reflexivity|].
  intros H. apply andb_prop in H as [Hc Hs].
  now rewrite (slug_char_lower c Hc), (IH Hs).
Qed.

Lemma close_run_good (cur : string) :
  all_chars lower_alnum cur = true -> Forall good_run (close_run cur).
Proof.
  intros H. destruct cur as [|c cur]; constructor; [|constructor].
  split; [discriminate | exact H].
Qed.

Lemma lowered_runs_good (s cur : string) :
  all_chars lower_alnum cur = true ->
  Forall good_run (alnum_runs_from cur (lower s)).
Proof.
  revert cur. induction s as [|c s IH]; intros cur Hcur.
  - now apply close_run_good.
  - cbn [lower]. rewrite alnum_runs_from_cons.
    destruct (is_alnum (lower_char c)) eqn:E.
    + apply IH. rewrite all_chars_app, Hcur. simpl.
      now rewrite (lowered_alnum c E).
    + apply Forall_app. split; [now apply close_run_good | now apply IH].
Qed.

Lemma runs_through_alnum (r cur rest : string) :
  all_chars lower_alnum r = true ->
  alnum_runs_from cur (r ++ rest) = alnum_runs_from (cur ++ r) rest.
Proof.
  revert cur. induction r as [|c r IH]; intros cur H.
  - now rewrite append_nil_r.
  - simpl in H. apply andb_prop in H as [Hc Hr].
    destruct (lower_alnum_facts c Hc) as (_ & Ha & _).
    cbn [append]. rewrite alnum_runs_from_cons, Ha, (IH _ Hr).
    now rewrite append_snoc_cons.
Qed.

Lemma join_cons (r : string) (rs : list string) :
  join "_" (r :: rs)
  = match rs with [] => r | _ :: _ => r ++ "_" ++ join "_" rs end.
Proof. reflexivity. Qed.

(** Reading the runs of a joined list of good runs gives the list back. *)
Lemma runs_of_join (rs : list string) :
  Forall good_run rs -> alnum_runs_from "" (join "_" rs) = rs.
Proof.
  induction 1 as [|r rs [Hne Hr] Hrs IH]; [reflexivity|].
  rewrite join_cons. destruct rs as [|r' rs].
  - rewrite <- (append_nil_r r) at 1. rewrite (runs_through_alnum r "" "" Hr).
    simpl. now apply close_run_cons.
  - rewrite (runs_through_alnum r "" _ Hr). cbn [append].
    rewrite alnum_runs_from_cons. change (is_alnum "_"%char) with false.
    cbv iota. rewrite IH, close_run_cons by assumption. reflexivity.
Qed.

Lemma join_slug_chars (rs : list string) :
  Forall good_run rs -> all_chars slug_char (join "_" rs) = true.
Proof.
  induction 1 as [|r rs [_ Hr] Hrs IH]; [reflexivity|].
  assert (Hs : all_chars slug_char r = true)
    by (apply (all_chars_weaken lower_alnum); [apply lower_alnum_slug_char | exact Hr]).
  rewrite join_cons. destruct rs as [|r' rs]; [exact Hs|].
  rewrite all_chars_app, Hs.
  remember (join "_" (r' :: rs)) as j eqn:Ej. clear Ej.
  simpl. exact IH.
Qed.

Lemma no_double_after_alnum (r x : string) :
  all_chars lower_alnum r = true ->
  no_double is_underscore (r ++ x) = no_double is_underscore x.
Proof.
  induction r as [|c r IH]; intros H; [reflexivity|].
  simpl in H. apply andb_prop in H as [Hc Hr].
  destruct (lower_alnum_facts c Hc) as (_ & _ & Hu).
  cbn [append no_double]. now rewrite Hu, (IH Hr).
Qed.

Lemma join_starts (rs : list string) :
  Forall good_run rs -> starts_in is_underscore (join "_" rs) = false.
Proof.
  intros H. destruct H as [|r rs [Hne Hr] _]; [reflexivity|].
  rewrite join_cons. destruct r as [|c r]; [contradiction|].
  simpl in Hr. apply andb_prop in Hr as [Hc _].
  destruct (lower_alnum_facts c Hc) as (_ & _ & Hu).
  destruct rs; exact Hu.
Qed.

Lemma join_no_double (rs : list string) :
  Forall good_run rs -> no_double is_underscore (join "_" rs) = true.
Proof.
  induction 1 as [|r rs [_ Hr] Hrs IH]; [reflexivity|].
  rewrite join_cons. destruct rs as [|r' rs].
  - rewrite <- (append_nil_r r). now rewrite no_double_after_alnum.
  - rewrite no_double_after_alnum by exact Hr.
    pose proof (join_starts _ Hrs) as Hs.
    remember (join "_" (r' :: rs)) as j eqn:Ej. clear Ej.
    simpl. now rewrite Hs, IH.
Qed.

Lemma slug_runs_good (s : string) : Forall good_run (alnum_runs (lower s)).
Proof. now apply lowered_runs_good. Qed.

(** A well-formed slug is the join of its own runs. *)
Lemma slug_is_join (t : string) :
  all_chars slug_char t = true ->
  no_double is_underscore t = true ->
  ends_in is_underscore t = false ->
  (forall cur, cur <> "" -> join "_" (alnum_runs_from cur t) = cur ++ t)
  /\ (starts_in is_underscore t = false ->
      join "_" (alnum_runs_from "" t) = t).
Proof.
  induction t as [|c t IH]; intros Hc Hd He.
  - split; [|reflexivity]. intros cur Hne. simpl.
    now rewrite close_run_cons, append_nil_r.
  - simpl in Hc. apply andb_prop in Hc as [Hc Ht].
    cbn [no_double] in Hd. apply andb_prop in Hd as [Hcd Hd].
    assert (He' : ends_in is_underscore t = false)
      by (destruct t; [reflexivity | exact He]).
    destruct (IH Ht Hd He') as [IHG IHH].
    destruct (slug_char_cases c Hc) as [Ha | ->].
    + destruct (lower_alnum_facts c Ha) as (_ & Hal & _).
      split.
      * intros cur Hne. rewrite alnum_runs_from_cons, Hal.
        rewrite IHG by apply snoc_not_empty. apply append_snoc_cons.
      * intros _. rewrite alnum_runs_from_cons, Hal.
        now rewrite IHG by discriminate.
    + split; [|discriminate].
      intros cur Hne. rewrite alnum_runs_from_cons.
      change (is_alnum underscore) with false. cbv iota.
      rewrite close_run_cons by assumption.
      change (is_underscore underscore) with true in Hcd.
      cbn [andb] in Hcd. apply negb_true_iff in Hcd.
      specialize (IHH Hcd).
      destruct t as [|d t]; [discriminate He|].
      destruct (alnum_runs_from "" (String d t)) as [|r rs] eqn:E;
        [discriminate IHH|].
      cbn [app]. rewrite join_cons, IHH. reflexivity.
Qed.

Lemma runs_empty_iff (s cur : string) :
  alnum_runs_from cur s = [] <-> cur = "" /\ has_alnum s = false.
Proof.
  revert cur. induction s as [|c s IH]; intros cur.
  - simpl. destruct cur; split; intros H; try easy; now destruct H.
  - rewrite alnum_runs_from_cons. cbn [has_alnum].
    destruct (is_alnum c).
    + rewrite IH. split; intros [H1 H2]; [|discriminate].
      destruct cur; discriminate.
    + destruct cur as [|d cur]; simpl.
      * rewrite IH. tauto.
      * split; [discriminate | intros [H _]; discriminate].
Qed.

Lemma slugify_well_formed (value : string) : is_slug (slugify value) = true.
Proof.
  pose proof (slug_runs_good value) as Hg.
  assert (Hc : all_chars slug_char (slugify value) = true)
    by (rewrite slugify_runs; now apply join_slug_chars).
  unfold is_slug. rewrite Hc.
  assert (Hd : no_double is_underscore (slugify value) = true)
    by (rewrite slugify_runs; now apply join_no_double).
  rewrite Hd. unfold slugify.
  destruct (strip_ends is_underscore
              (re_sub_runs is_underscore 2 "_"
                 (_slug_rx_sub "_" (lower (strip is_space value)))))
    as [-> ->].
  reflexivity.
Qed.

(** X1.  [slugify] is idempotent, and what it returns is a well-formed
    slug: characters of [a-z0-9_] only, no underscore at either end, no
    two underscores in a row. *)
Theorem slugify_idempotent :
  forall value : string,
    slugify (slugify value) = slugify value
    /\ is_slug (slugify value) = true.
Proof.
  intros value. split; [|apply slugify_well_formed].
  pose proof (slug_runs_good value) as Hg.
  assert (Hc : all_chars slug_char (slugify value) = true)
    by (rewrite slugify_runs; now apply join_slug_chars).
  rewrite (slugify_runs (slugify value)). unfold spec_slugify.
  rewrite (lower_slug_chars _ Hc). rewrite (slugify_runs value) at 1.
  unfold spec_slugify, alnum_runs at 1.
  rewrite (runs_of_join _ Hg). symmetry. apply slugify_runs.
Qed.

(** X2.  The texts [slugify] leaves unchanged are exactly the well-formed
    slugs. *)
Theorem slugify_fixed_points :
  forall t : string, slugify t = t <-> is_slug t = true.
Proof.
  intros t. split.
  - intros H. rewrite <- H. apply slugify_well_formed.
  - unfold is_slug. intros H.
    apply andb_prop in H as [H He]. apply andb_prop in H as [H Hs].
    apply andb_prop in H as [Hc Hd].
    apply negb_true_iff in He, Hs.
    rewrite slugify_runs. unfold spec_slugify, alnum_runs.
    rewrite (lower_slug_chars _ Hc).
    now apply (proj2 (slug_is_join t Hc Hd He)).
Qed.

(** X3.  [slugify] returns the empty string exactly when the lower-cased
    text, [value.lower()], holds no character of [a-zA-Z0-9]; a subject of
    that kind is given the bare base namespace as its URI. *)
Theorem slugify_empty_iff :
  forall value : string,
    (slugify value = "" <-> has_alnum (lower value) = false)
    /\ (has_alnum (lower value) = false ->
        forall base predicate object,
          s_uri base (mkTriple value predicate object) = URIRef (base ++ "")).
Proof.
  intros value.
  assert (H : slugify value = "" <-> has_alnum (lower value) = false).
  { rewrite slugify_runs. unfold spec_slugify, alnum_runs. split.
    - intros H. apply join_empty_runs in H.
      now apply runs_empty_iff in H as [_ H].
    - intros H.
      assert (E : alnum_runs_from "" (lower value) = [])
        by (apply runs_empty_iff; now split).
      now rewrite E. }
  split; [exact H|].
  intros Hn base predicate object. unfold s_uri. cbn [subject].
  now rewrite (proj2 H Hn).
Qed.

(** X4.  Two texts get the same slug exactly when their lower-cased texts
    have the same alphanumeric runs: case, and which characters separate
    the runs, are lost. *)
Theorem slugify_collisions :
  forall a b : string,
    slugify a = slugify b
    <-> alnum_runs (lower a) = alnum_runs (lower b).
Proof.
  intros a b. rewrite !slugify_runs. unfold spec_slugify. split.
  - intros H.
    rewrite <- (runs_of_join _ (slug_runs_good a)).
    rewrite <- (runs_of_join _ (slug_runs_good b)).
    now rewrite H.
  - now intros ->.
Qed.

End SlugShape.

(** ** kg-openai.py: the statements [forward] adds *)
Section StatementFacts.
Import KgOpenai.

(** X5.  Whatever triples the model extracts, [forward] adds one title
    statement and two statements per triple; no literal is ever put in
    subject or predicate position; every extracted subject is linked from
    the theme node by [relatesTo]. *)
Theorem forward_statements_shape :
  forall (extractor : string -> string -> list Triple)
         (base theme text : string),
    let added := forward_statements extractor base theme text in
    let theme_uri := URIRef (base ++ slugify theme) in
    List.length added = 1 + 2 * List.length (extractor theme text)
    /\ Forall (fun st => is_literal (statement_subject st) = false
                         /\ is_literal (statement_predicate st) = false)
         added
    /\ hd_error added
       = Some (theme_uri, URIRef "http://purl.org/dc/terms/title",
               Literal theme)
    /\ Forall (fun t =>
                 In (s_uri base t, p_uri base t, o_node base t) added
                 /\ In (theme_uri, URIRef (base ++ "relatesTo"), s_uri base t)
                      added)
         (extractor theme text).
Proof.
  intros extractor base theme text added theme_uri.
  unfold added, forward_statements. fold theme_uri.
  generalize (extractor theme text) as triples. intros triples.
  repeat split.
  - cbn [List.length]. f_equal.
    induction triples as [|t ts IH]; [reflexivity|].
    cbn [flat_map triple_statements app List.length]. rewrite IH. lia.
  - constructor; [now split|].
    induction triples as [|t ts IH]; [constructor|].
    cbn [flat_map triple_statements app].
    constructor; [now split|]. constructor; [now split | exact IH].
  - apply Forall_forall. intros t Ht. split; right; apply in_flat_map;
      exists t; (split; [exact Ht|]); simpl; tauto.
Qed.

End StatementFacts.

(** ** kg-anthropic.py: [extract_knowledge_graph] *)
Section KnowledgeGraphFacts.
Import KgAnthropic.

Variable Graph : Type.
Variable extractor : string -> string -> string.
Variable parse : string -> ParseOutcome Graph.
Variable graph_truthy : Graph -> bool.
Variable serialize : Graph -> string -> Outcome string.

Lemma extract_knowledge_graph_cases (theme text output_format : string) :
  extract_knowledge_graph Graph extractor parse graph_truthy serialize
    theme text output_format
  = match parse (extractor theme text) with
    | ParseError msg =>
        Returns (mkKnowledgeGraph Graph (extractor theme text) output_format
                   None (Some msg))
    | Parsed g =>
        if graph_truthy g && negb (String.eqb output_format "turtle")
        then match serialize g output_format with
             | Returns out =>
                 Returns (mkKnowledgeGraph Graph out output_format (Some g)
                            None)
             | Raises e => Raises e
             end
        else Returns (mkKnowledgeGraph Graph (extractor theme text)
                        output_format (Some g) None)
    end.
Proof.
  unfold extract_knowledge_graph, forward.
  destruct (parse (extractor theme text)) as [g | msg]; reflexivity.
Qed.

End KnowledgeGraphFacts.

Section KnowledgeGraphClaims.
Import KgAnthropic.

(** X6.  [extract_knowledge_graph] raises only when the text was parsed,
    the graph is a true value, a format other than Turtle was asked for and
    the serializer raised.  When it returns, the record names the requested
    format, carries an error exactly when it carries no graph, and its text
    is either the model's raw text or what the serializer made of the
    parsed graph. *)
Theorem extract_knowledge_graph_outcomes :
  forall (Graph : Type) (extractor : string -> string -> string)
         (parse : string -> ParseOutcome Graph)
         (graph_truthy : Graph -> bool)
         (serialize : Graph -> string -> Outcome string)
         (theme text output_format : string),
    let raw := extractor theme text in
    let serialized := fun (out : Outcome string) =>
      exists g, parse raw = Parsed g /\ graph_truthy g = true
                /\ String.eqb output_format "turtle" = false
                /\ serialize g output_format = out in
    match extract_knowledge_graph Graph extractor parse graph_truthy
            serialize theme text output_format with
    | Raises e => serialized (Raises e)
    | Returns r =>
        kg_format r = output_format
        /\ (kg_graph r = None <-> kg_error r <> None)
        /\ (kg_rdf r = raw \/ serialized (Returns (kg_rdf r)))
    end.
Proof.
  intros Graph extractor parse graph_truthy serialize theme text
    output_format raw serialized.
  rewrite extract_knowledge_graph_cases. fold raw.
  destruct (parse raw) as [g | msg] eqn:Ep.
  - destruct (graph_truthy g) eqn:Et;
      destruct (String.eqb output_format "turtle") eqn:Ef; cbn [andb negb];
      try (split; [reflexivity|]; split; [split; [discriminate | intros H; now elim H] | now left]).
    destruct (serialize g output_format) as [out | e] eqn:Es.
    + split; [reflexivity|].
      split; [split; [discriminate | intros H; now elim H]|].
      right. exists g. now repeat split.
    + exists g. now repeat split.
  - split; [reflexivity|].
    split; [split; [discriminate | reflexivity] | now left].
Qed.

End KnowledgeGraphClaims.

(** ** landscape.py: [build_landscape_knowledge_graph] *)
Section BuiltGraphClaims.
Import Firecrawl Landscape LandscapeGraph.

(** X7.  [build_landscape_knowledge_graph] makes the model calls of
    [forward] and no other.  Its statistics either count the pages -- all
    of them -- and the statements of the graph parsed from the merged text,
    or carry an error message, and then the text returned is the merged
    text itself, as it also is whenever Turtle is the requested format: a
    parse or serialisation failure never loses the merged text. *)
Theorem build_landscape_knowledge_graph_keeps_text :
  forall (lm : Models) (repr : PyMeta -> string) (Graph : Type)
         (parse : string -> KgAnthropic.ParseOutcome Graph)
         (graph_len : Graph -> nat)
         (serialize : Graph -> string -> KgAnthropic.Outcome string)
         (domain : string) (pages : list Page) (output_format : string),
    let run := build_landscape_knowledge_graph lm repr Graph parse graph_len
                 serialize domain pages output_format in
    let merged := fold_left (merge_step lm repr domain) pages
                    (seed lm repr domain pages) in
    calls run = calls (forward lm repr domain pages)
    /\ (if String.eqb output_format "turtle"
        then built_graph (value run) = merged
        else True)
    /\ match stats (value run) with
       | StatsOk total processed =>
           processed = List.length pages
           /\ exists g, parse merged = KgAnthropic.Parsed g
                        /\ total = graph_len g
       | StatsError _ => built_graph (value run) = merged
       end.
Proof.
  intros lm repr Graph parse graph_len serialize domain pages output_format
    run merged.
  unfold run, build_landscape_knowledge_graph.
  rewrite calls_bind, value_bind, forward_value.
  cbn [canonical_graph pages_processed]. fold merged.
  split; [unfold ret, calls; cbn [snd]; apply app_nil_r|].
  unfold ret, value. cbn [fst].
  destruct (parse merged) as [g | msg] eqn:Ep.
  - destruct (String.eqb output_format "turtle"); cbn [negb].
    + split; [reflexivity|]. split; [reflexivity|]. now exists g.
    + split; [exact I|].
      destruct (serialize g output_format) as [out | e]; cbn [stats built_graph];
        [|reflexivity].
      split; [reflexivity|]. now exists g.
  - split; [destruct (String.eqb output_format "turtle"); [reflexivity | exact I]|].
    reflexivity.
Qed.

End BuiltGraphClaims.

(** ** landscape.py: [SimpleAccumulator] *)
Section AccumulatorFacts.
Import Firecrawl Landscape SimpleAccumulator.

Variable lm : SimpleAccumulator.Models.
Variable repr : PyMeta -> string.

Lemma turn_counts (domain : string) (graph : string) (made : list Call)
    (page : Page) :
  let next := turn lm repr domain (graph, made) page in
  count_calls is_extract (snd next) = S (count_calls is_extract made)
  /\ count_calls is_merge (snd next)
     = (match graph with "" => 0 | _ => 1 end) + count_calls is_merge made.
Proof.
  unfold count_calls, turn. destruct graph as [|c g]; cbn [snd];
    rewrite ?filter_app, ?length_app; simpl; split; lia.
Qed.


Lemma turn_first (domain : string) (made : list Call) (page : Page) :
  turn lm repr domain ("", made) page
  = (extracted lm repr domain page,
     (made ++ [ExtractRDF domain (text_with_metadata repr page) (url page)])%list).
Proof. reflexivity. Qed.

Lemma turn_later (domain graph : string) (made : list Call) (page : Page) :
  graph <> "" ->
  turn lm repr domain (graph, made) page
  = (merger lm graph (extracted lm repr domain page) domain,
     ((made ++ [ExtractRDF domain (text_with_metadata repr page) (url page)])
      ++ [MergeRDF graph (extracted lm repr domain page) domain])%list).
Proof. destruct graph; [contradiction | reflexivity]. Qed.

Lemma fold_merges_all (domain : string) (pages : list Page) (graph : string)
    (made : list Call) :
  (forall g n d, merger lm g n d <> "") ->
  graph <> "" ->
  let final := fold_left (turn lm repr domain) pages (graph, made) in
  fst final
  = fold_left (fun g q => merger lm g (extracted lm repr domain q) domain)
      pages graph
  /\ count_calls is_merge (snd final)
     = count_calls is_merge made + List.length pages.
Proof.
  intros Hm. revert graph made.
  induction pages as [|p pages IH]; intros graph made Hg.
  - simpl. split; [reflexivity | lia].
  - cbn [fold_left List.length].
    destruct (turn_counts domain graph made p) as [_ Hc].
    destruct graph as [|c g]; [contradiction|].
    cbn [turn] in *. cbn [snd] in Hc.
    destruct (IH (merger lm (String c g) (extracted lm repr domain p) domain)
                (((made ++ [ExtractRDF domain (text_with_metadata repr p)
                              (url p)])
                  ++ [MergeRDF (String c g) (extracted lm repr domain p)
                        domain])%list)
                (Hm _ _ _)) as [IH1 IH2].
    cbv zeta in *. split; [exact IH1|]. rewrite IH2, Hc. lia.
Qed.

End AccumulatorFacts.

Section AccumulatorClaims.
Import Firecrawl Landscape SimpleAccumulator.


(** X9.  When neither predictor ever answers with the empty text, the
    graph returned for a non-empty list of pages is the first page's
    extraction with every later page merged in, in order, and the merger is
    called once for each page after the first. *)
Theorem accumulator_folds_after_first :
  forall (lm : SimpleAccumulator.Models) (repr : PyMeta -> string)
         (domain : string) (first : Page) (rest : list Page),
    (forall d t u, SimpleAccumulator.extractor lm d t u <> "") ->
    (forall g n d, SimpleAccumulator.merger lm g n d <> "") ->
    let run := SimpleAccumulator.forward lm repr domain (first :: rest) in
    fst run
    = fold_left
        (fun g q =>
           SimpleAccumulator.merger lm g (extracted lm repr domain q) domain)
        rest (extracted lm repr domain first)
    /\ count_calls SimpleAccumulator.is_merge (snd run) = List.length rest.
Proof.
  intros lm repr domain first rest He Hm run.
  unfold run, SimpleAccumulator.forward. cbn [fold_left turn].
  destruct (fold_merges_all lm repr domain rest
              (extracted lm repr domain first)
              ([] ++ [ExtractRDF domain (text_with_metadata repr first)
                        (url first)])%list
              Hm (He _ _ _)) as [H1 H2].
  cbv zeta in *. split; [exact H1 | exact H2].
Qed.

Lemma accumulator_folds_after_first_witness :
  fst (SimpleAccumulator.forward SimpleAccumulator.stub_models stub_repr
         "AI Writing Tools" [page_grammarly; page_jasper])
  = "<https://grammarly.com>" ++ LF ++ "<https://jasper.ai>".
Proof.
  apply (proj1 (accumulator_folds_after_first SimpleAccumulator.stub_models
                  stub_repr "AI Writing Tools" page_grammarly [page_jasper]
                  (fun d t u => ltac:(discriminate))
                  (fun g n d => ltac:(destruct g; discriminate)))).
Defined.

(** X10.  A merge answered with the empty text discards what was gathered:
    the next page is taken as if it were the first -- its extraction
    becomes the graph, without a merge call. *)
Theorem accumulator_restarts_after_empty_merge :
  forall (lm : SimpleAccumulator.Models) (repr : PyMeta -> string)
         (domain : string) (p0 p q : Page),
    extracted lm repr domain p0 <> "" ->
    SimpleAccumulator.merger lm (extracted lm repr domain p0)
      (extracted lm repr domain p) domain = "" ->
    let run := SimpleAccumulator.forward lm repr domain [p0; p; q] in
    fst run = extracted lm repr domain q
    /\ count_calls SimpleAccumulator.is_merge (snd run) = 1.
Proof.
  intros lm repr domain p0 p q H0 Hm run.
  unfold run, SimpleAccumulator.forward. cbn [fold_left].
  rewrite turn_first, (turn_later lm repr domain _ _ p H0), Hm, turn_first.
  split; [reflexivity|]. unfold count_calls. cbn [snd].
  rewrite !filter_app. reflexivity.
Qed.

Lemma accumulator_restarts_after_empty_merge_witness :
  fst (SimpleAccumulator.forward forgetful_models stub_repr
         "AI Writing Tools" [page_grammarly; page_jasper; page_grammarly])
  = "<https://grammarly.com>".
Proof.
  apply (proj1 (accumulator_restarts_after_empty_merge forgetful_models
                  stub_repr "AI Writing Tools" page_grammarly page_jasper
                  page_grammarly ltac:(discriminate) eq_refl)).
Defined.

End AccumulatorClaims.

(** ** landscape.py: what the crawler returns *)
Section CrawledPages.
Import Firecrawl Landscape.

Variable scrape_url : string -> ScrapeOutcome.

Lemma text_of_truthy (content : option string) :
  text_truthy content = true -> text_of content <> "".
Proof. destruct content as [[|c t]|]; simpl; discriminate. Qed.

Lemma crawl_url_page_text (u : string) :
  Forall (fun p => text p <> "" /\ url p = u /\ fetched (scrape_url u) = true)
    (fst (crawl_url scrape_url u)).
Proof.
  unfold crawl_url, fetched. destruct (scrape_url u) as [name msg | r];
    [constructor|].
  destruct r as [|md meta|d|hd]; simpl; try constructor.
  - destruct (text_truthy md) eqn:E; simpl; constructor; [|constructor].
    repeat split. now apply text_of_truthy.
  - rewrite <- orb_assoc, <- !text_or_truthy.
    destruct (text_truthy _) eqn:E; simpl; constructor; [|constructor].
    repeat split. now apply text_of_truthy.
Qed.

End CrawledPages.

Section CrawledPagesClaims.
Import Firecrawl Landscape.

(** X11.  Every page [crawl_pages_with_firecrawl] of landscape.py returns
    has a non-empty text and the URL of a list entry whose fetch brought
    content; the builder is never handed a page without text. *)
Theorem crawled_pages_have_text :
  forall (scrape_url : string -> ScrapeOutcome) (urls : list string),
    Forall (fun p => text p <> "" /\ In (url p) urls
                     /\ fetched (scrape_url (url p)) = true)
      (fst (crawl_pages_with_firecrawl scrape_url urls)).
Proof.
  intros scrape_url urls. induction urls as [|u urls IH]; [constructor|].
  rewrite crawl_cons. cbn [fst]. apply Forall_app. split.
  - eapply Forall_impl; [|apply crawl_url_page_text].
    intros p (Ht & Hu & Hf). subst u. repeat split; [exact Ht | now left | exact Hf].
  - eapply Forall_impl; [|exact IH].
    intros p (Ht & Hu & Hf). repeat split; [exact Ht | now right | exact Hf].
Qed.

End CrawledPagesClaims.

(** ** landscape_schema.py: what its crawler returns *)
Section SchemaCrawl.
Import Firecrawl LandscapeSchema.

Variable scrape_url : string -> ScrapeOutcome.

Lemma schema_crawl_loop_acc (urls : list string) (pages : list Page) :
  crawl_loop scrape_url urls pages
  = (pages ++ crawl_loop scrape_url urls [])%list.
Proof.
  revert pages. induction urls as [|u urls IH]; intros pages; simpl.
  - now rewrite app_nil_r.
  - rewrite IH, (IH (crawl_url scrape_url u)). now rewrite app_assoc.
Qed.

Lemma schema_crawl_cons (u : string) (urls : list string) :
  crawl_pages_with_firecrawl scrape_url (u :: urls)
  = (crawl_url scrape_url u ++ crawl_pages_with_firecrawl scrape_url urls)%list.
Proof.
  unfold crawl_pages_with_firecrawl. simpl. apply schema_crawl_loop_acc.
Qed.

Lemma page_summaries_raise (pages : list Page) :
  Exists (fun p => text p = None) pages ->
  page_summaries pages = Raise "TypeError".
Proof.
  induction pages as [|p pages IH]; intros H; [inversion H|].
  simpl. unfold page_summary. destruct (text p) as [t|] eqn:E; [|reflexivity].
  inversion H as [? ? Hp | ? ? Hps]; subst; [congruence|].
  now rewrite (IH Hps).
Qed.

End SchemaCrawl.

Section SchemaCrawlClaims.
Import Firecrawl LandscapeSchema.

(** X12.  The crawler of landscape_schema.py keeps a URL exactly when the
    client returned an object with a [markdown] attribute, and the page
    text is that attribute unchecked -- possibly [None] or empty.  A dict
    result never gives a page, even when it carries content. *)
Theorem schema_crawl_keeps_objects_only :
  forall (scrape_url : string -> ScrapeOutcome) (urls : list string),
    let pages := crawl_pages_with_firecrawl scrape_url urls in
    map url pages
    = filter (fun u => is_response_object (scrape_url u)) urls
    /\ Forall (fun p => exists meta,
                 scrape_url (url p)
                 = Returned (ResponseObject (text p) meta))
         pages.
Proof.
  intros scrape_url urls pages. unfold pages. clear pages.
  induction urls as [|u urls [IH1 IH2]]; [split; [reflexivity | constructor]|].
  rewrite schema_crawl_cons. cbn [filter]. rewrite map_app, IH1. split.
  - unfold crawl_url, is_response_object.
    destruct (scrape_url u) as [name msg | [|md meta|d|hd]]; reflexivity.
  - apply Forall_app. split; [|exact IH2].
    unfold crawl_url.
    destruct (scrape_url u) as [name msg | [|md meta|d|hd]] eqn:E;
      constructor; [|constructor].
    cbn [url text]. rewrite E. now exists meta.
Qed.

(** X13.  If one fetched page has no text ([markdown] was [None]), the
    whole run of [build_landscape_schema_and_instances] ends in a
    [TypeError] raised while the schema prompt is put together: the output
    directory has been created, no model call has been made and no file has
    been written. *)
Theorem page_without_text_aborts_run :
  forall (lm : Models) (scrape_url : string -> ScrapeOutcome)
         (open_file : string -> Result string)
         (domain : string) (urls : list string) (output_dir : string),
    Exists (fun p => text p = None)
      (crawl_pages_with_firecrawl scrape_url urls) ->
    build_landscape_schema_and_instances lm scrape_url open_file domain urls
      output_dir
    = (Raise "TypeError", [MakeDirs output_dir]).
Proof.
  intros lm scrape_url open_file domain urls output_dir H.
  unfold build_landscape_schema_and_instances.
  rewrite (bind_ok _ _ tt) by reflexivity.
  pose proof (page_summaries_raise _ H) as Hs.
  destruct (crawl_pages_with_firecrawl scrape_url urls) as [|p ps] eqn:Ep;
    [inversion H|].
  assert (Hf : forward lm domain (p :: ps) = (Raise "TypeError", [])).
  { assert (He : extract_schema lm domain (p :: ps)
                 = (Raise "TypeError", []))
      by (unfold extract_schema; now rewrite (bind_raise _ _ "TypeError")).
    unfold forward.
    rewrite (bind_raise _ _ "TypeError") by (now rewrite He).
    now rewrite He. }
  rewrite (bind_raise _ _ "TypeError") by (now rewrite Hf).
  rewrite Hf. reflexivity.
Qed.

Lemma page_without_text_aborts_run_witness :
  build_landscape_schema_and_instances stub_models blank_scrape open_any
    "AI Writing Tools" ["https://grammarly.com"] "output"
  = (Raise "TypeError", [MakeDirs "output"]).
Proof.
  apply (page_without_text_aborts_run stub_models blank_scrape open_any
           "AI Writing Tools" ["https://grammarly.com"] "output").
  vm_compute. now constructor.
Defined.

End SchemaCrawlClaims.

(** ** landscape_schema.py: the instances dict *)
Section InstanceKeys.
Import Firecrawl LandscapeSchema.

Lemma dict_set_keys_in (k v k' : string) (d : Dict) :
  In k' (keys (dict_set k v d)) <-> k' = k \/ In k' (keys d).
Proof.
  unfold keys. induction d as [|[k2 v2] d IH]; simpl.
  - intuition.
  - destruct (String.eqb_spec k k2) as [->|Hne]; simpl; [intuition|].
    rewrite IH. intuition.
Qed.

Lemma dict_set_keys_nodup (k v : string) (d : Dict) :
  NoDup (keys d) -> NoDup (keys (dict_set k v d)).
Proof.
  unfold keys. induction d as [|[k2 v2] d IH]; simpl; intros H.
  - repeat constructor. intros [].
  - inversion H as [|? ? Hn Hd]; subst.
    destruct (String.eqb_spec k k2) as [->|Hne]; simpl; [now constructor|].
    constructor; [|now apply IH].
    intros Hin. apply (dict_set_keys_in k v k2 d) in Hin.
    destruct Hin as [-> | Hin]; [now apply Hne | now apply Hn].
Qed.

Lemma dict_set_length (k v : string) (d : Dict) :
  List.length (dict_set k v d) <= S (List.length d).
Proof.
  induction d as [|[k2 v2] d IH]; simpl; [lia|].
  destruct (String.eqb k k2); simpl; lia.
Qed.

Variable lm : Models.

Lemma stored_keys (schema domain : string) (pages : list Page) (d : Dict) :
  let final := fold_left (store_instance lm schema domain) pages d in
  (NoDup (keys d) -> NoDup (keys final))
  /\ (forall u, In u (keys final) <-> In u (keys d) \/ In u (map url pages))
  /\ List.length final <= List.length d + List.length pages.
Proof.
  revert d. induction pages as [|p pages IH]; intros d; cbn [fold_left].
  - cbv zeta. repeat split; try tauto; [intros [H | []]; exact H | simpl; lia].
  - destruct (IH (store_instance lm schema domain d p)) as (IH1 & IH2 & IH3).
    cbv zeta in *.
    assert (Hn : NoDup (keys d) ->
                 NoDup (keys (store_instance lm schema domain d p)))
      by (unfold store_instance; apply dict_set_keys_nodup).
    assert (Hk : forall u, In u (keys (store_instance lm schema domain d p))
                           <-> u = url p \/ In u (keys d))
      by (intros u; unfold store_instance; apply dict_set_keys_in).
    assert (Hl : List.length (store_instance lm schema domain d p)
                 <= S (List.length d))
      by (unfold store_instance; apply dict_set_length).
    split; [intros H; now apply IH1, Hn|].
    split; [|cbn [List.length]; lia].
    intros u. rewrite IH2, Hk. simpl. intuition auto.
Qed.

End InstanceKeys.

Section InstanceKeysClaims.
Import Firecrawl LandscapeSchema.

(** X14.  In the prediction of a successful [forward] the instances have
    pairwise different keys, the keys are exactly the URLs of the pages,
    and there are at most as many instances as pages -- as many exactly
    when the page URLs are pairwise different. *)
Theorem instances_keyed_by_url :
  forall (lm : Models) (domain : string) (pages : list Page)
         (r : Prediction) (events : list Event),
    forward lm domain pages = (Ok r, events) ->
    NoDup (keys (instances r))
    /\ (forall u, In u (keys (instances r)) <-> In u (map url pages))
    /\ List.length (instances r) <= List.length pages
    /\ (List.length (instances r) = List.length pages
        <-> NoDup (map url pages)).
Proof.
  intros lm domain pages r events H.
  destruct (forward_ok_summaries lm domain pages r events H) as [ss E].
  rewrite (forward_run lm domain pages ss E) in H.
  injection H as <- _. cbn [instances].
  set (s := schema_extractor lm domain _).
  destruct (stored_keys lm s domain pages []) as (H1 & H2 & H3).
  cbv zeta in *.
  assert (Hn : NoDup (keys (fold_left (store_instance lm s domain) pages [])))
    by (apply H1; constructor).
  assert (Hk : forall u,
             In u (keys (fold_left (store_instance lm s domain) pages []))
             <-> In u (map url pages)).
  { intros u. rewrite H2. simpl. tauto. }
  repeat split; try assumption; try (now apply Hk).
  - intros Hlen.
    apply NoDup_incl_NoDup
      with (l := keys (fold_left (store_instance lm s domain) pages [])).
    + exact Hn.
    + unfold keys. rewrite !length_map. lia.
    + intros u. apply Hk.
  - intros Hd. rewrite stored_in_order by exact Hd.
    unfold instances_of. simpl. now rewrite length_map.
Qed.

Lemma instances_keyed_by_url_witness :
  exists (r : Prediction) (events : list Event),
    forward stub_models "AI Writing Tools"
      [page_grammarly; page_jasper; page_grammarly]
    = (Ok r, events)
    /\ List.length (instances r) <= 3
    /\ NoDup (keys (instances r)).
Proof.
  eassert (H : forward stub_models "AI Writing Tools"
                 [page_grammarly; page_jasper; page_grammarly] = (Ok _, _))
    by (vm_compute; reflexivity).
  do 2 eexists. split; [exact H|].
  destruct (instances_keyed_by_url stub_models "AI Writing Tools" _ _ _ H)
    as (Hn & _ & Hl & _).
  split; [exact Hl | exact Hn].
Defined.

End InstanceKeysClaims.

(** ** landscape_schema.py: file names and file texts *)
Section FileFacts.
Import Firecrawl LandscapeSchema.

Lemma prefix_empty (s : string) : String.prefix "" s = true.
Proof. destruct s; reflexivity. Qed.

Lemma prefix_one_char (o c : ascii) (s : string) :
  String.prefix (String o "") (String c s) = Ascii.eqb o c.
Proof.
  simpl. destruct (ascii_dec o c) as [->|Hne].
  - now rewrite prefix_empty, Ascii.eqb_refl.
  - symmetry. now apply Ascii.eqb_neq.
Qed.

Lemma mem_char_drop (c : ascii) (n : nat) (s : string) :
  mem_char c s = false -> mem_char c (drop n s) = false.
Proof.
  revert s. induction n as [|n IH]; intros s H; [exact H|].
  destruct s as [|d s]; [exact H|]. simpl in H |- *.
  apply orb_false_elim in H as [_ H]. now apply IH.
Qed.

(** [replace] brings in no character that neither the text nor the new
    piece holds. *)
Lemma replace_avoids (c : ascii) (old new s : string) :
  mem_char c new = false -> mem_char c s = false ->
  mem_char c (replace old new s) = false.
Proof.
  intros Hn Hs. unfold replace. destruct old as [|o old]; [exact Hs|].
  generalize (String.length s) as fuel. intros fuel.
  revert s Hs. induction fuel as [|fuel IH]; intros s Hs; [exact Hs|].
  cbn [replace_from]. destruct s as [|d s]; [reflexivity|].
  destruct (String.prefix (String o old) (String d s)).
  - rewrite mem_char_app, Hn. apply IH. now apply mem_char_drop.
  - simpl in Hs |- *. apply orb_false_elim in Hs as [Hd Hs].
    now rewrite Hd, (IH s Hs).
Qed.

(** Replacing a character by a piece without it leaves none of it. *)
Lemma replace_char_removes (o : ascii) (new s : string) :
  mem_char o new = false ->
  mem_char o (replace (String o "") new s) = false.
Proof.
  intros Hn. unfold replace.
  assert (H : forall fuel t, String.length t <= fuel ->
            mem_char o (replace_from fuel (String o "") new t) = false).
  { induction fuel as [|fuel IH]; intros t Hl.
    - destruct t; [reflexivity | simpl in Hl; lia].
    - cbn [replace_from]. destruct t as [|d t]; [reflexivity|].
      simpl in Hl. rewrite prefix_one_char.
      destruct (Ascii.eqb o d) eqn:E.
      + rewrite mem_char_app, Hn. cbn [String.length drop]. apply IH. lia.
      + cbn [mem_char]. rewrite E. apply IH. lia. }
  now apply H.
Qed.

Lemma basename_from_no_slash (acc s : string) :
  mem_char "/"%char s = false -> basename_from acc s = acc ++ s.
Proof.
  revert acc. induction s as [|c s IH]; intros acc H.
  - now rewrite append_nil_r.
  - cbn [mem_char] in H. apply orb_false_elim in H as [Hc H].
    cbn [basename_from]. unfold is_slash. rewrite Ascii.eqb_sym, Hc.
    rewrite (IH _ H). apply append_snoc_cons.
Qed.

Lemma instance_file_name_no_slash (u : string) :
  mem_char "/"%char (instance_file_name u) = false.
Proof.
  unfold instance_file_name. rewrite mem_char_app.
  rewrite replace_avoids; [reflexivity | reflexivity|].
  now apply replace_char_removes.
Qed.

Lemma split_never_empty (sep : ascii) (s : string) : split sep s <> [].
Proof.
  destruct s as [|c s]; simpl; [discriminate|].
  destruct (Ascii.eqb c sep); [discriminate|].
  destruct (split sep s); discriminate.
Qed.

(** Joining the lines of a text, each closed by a line break, gives the
    text with a line break at its end. *)
Lemma unlines_cons (l : string) (ls : list string) :
  unlines (l :: ls) = l ++ NL ++ unlines ls.
Proof. reflexivity. Qed.

Lemma unlines_lines (s : string) : unlines (lines s) = s ++ NL.
Proof.
  unfold lines. induction s as [|c s IH]; [reflexivity|].
  cbn [split]. destruct (Ascii.eqb_spec c LF) as [->|Hne].
  - rewrite unlines_cons, IH. reflexivity.
  - destruct (split LF s) as [|l ls] eqn:E;
      [now elim (split_never_empty LF s)|].
    rewrite unlines_cons in *. cbn [append]. now rewrite IH.
Qed.

Lemma page_summaries_agree (ps qs : list Page) :
  Forall2 (fun p q => url p = url q
                      /\ option_map (take 1000) (text p)
                         = option_map (take 1000) (text q)) ps qs ->
  page_summaries ps = page_summaries qs.
Proof.
  induction 1 as [|p q ps qs [Hu Ht] _ IH]; [reflexivity|].
  cbn [page_summaries]. rewrite IH. unfold page_summary. rewrite Hu.
  destruct (text p) as [t|], (text q) as [t'|]; try discriminate;
    [|reflexivity].
  injection Ht as ->. reflexivity.
Qed.

End FileFacts.

Section FileClaims.
Import Firecrawl LandscapeSchema.

(** X15.  Whatever the URL, the name of its instance file holds no slash
    and no dot but the one of the [.ttl] ending, so the file is written
    directly in the output directory: its path is the directory, a slash
    where one is needed, and the name. *)
Theorem instance_file_stays_in_output_dir :
  forall (output_dir url : string),
    let name := instance_file_name url in
    let path := path_join output_dir name in
    mem_char "/"%char name = false
    /\ (exists stem, name = stem ++ ".ttl" /\ mem_char "."%char stem = false)
    /\ basename path = name
    /\ (path = name /\ output_dir = ""
        \/ path = output_dir ++ name /\ ends_in is_slash output_dir = true
        \/ path = output_dir ++ "/" ++ name).
Proof.
  intros output_dir url name path.
  assert (Hs : mem_char "/"%char name = false)
    by apply instance_file_name_no_slash.
  split; [exact Hs|]. split.
  - eexists. split; [reflexivity|]. now apply replace_char_removes.
  - split.
    + unfold path. rewrite basename_path_join. unfold basename.
      now rewrite basename_from_no_slash.
    + unfold path, path_join.
      assert (Hb : starts_in is_slash name = false).
      { destruct name as [|c n]; [reflexivity|].
        cbn [mem_char] in Hs. cbn [starts_in].
        apply orb_false_elim in Hs as [Hc _]. unfold is_slash.
        now rewrite Ascii.eqb_sym. }
      rewrite Hb. destruct output_dir as [|c d]; [now left|].
      destruct (ends_in is_slash (String c d)); [right; left | right; right];
        tauto.
Qed.

(** X16.  An instance fragment without a line that starts with [@prefix]
    reaches the merged file whole: the part written for it is the
    [### From url ###] marker line followed by the fragment and a line
    break. *)
Theorem fragment_without_prefixes_is_kept :
  forall (url instance_rdf : string),
    Forall (fun line => is_prefix_line line = false) (lines instance_rdf) ->
    String.concat "" (merged_section (url, instance_rdf))
    = NL ++ "### From " ++ url ++ " ###" ++ NL ++ instance_rdf ++ NL.
Proof.
  intros url instance_rdf H.
  unfold merged_section. rewrite concat_empty_cons, concat_closed_lines.
  assert (Hk : kept_lines instance_rdf = lines instance_rdf).
  { unfold kept_lines, lines in *.
    induction H as [|l ls Hl _ IH]; [reflexivity|].
    simpl. unfold is_prefix_line in Hl. now rewrite Hl, IH. }
  rewrite Hk, unlines_lines, !append_assoc. reflexivity.
Qed.

Lemma fragment_without_prefixes_is_kept_witness :
  String.concat ""
    (merged_section ("https://jasper.ai", ":jasper a :Tool ;" ++ NL ++ "  :price 39 ."))
  = NL ++ "### From https://jasper.ai ###" ++ NL
    ++ ":jasper a :Tool ;" ++ NL ++ "  :price 39 ." ++ NL.
Proof.
  apply (fragment_without_prefixes_is_kept "https://jasper.ai"
           (":jasper a :Tool ;" ++ NL ++ "  :price 39 .")).
  vm_compute. repeat constructor.
Defined.

(** X17.  The schema prompt reads no page beyond its first 1000
    characters, nor its metadata: two lists of pages with the same URLs
    and texts that agree up to there give the same schema call and the
    same schema. *)
Theorem schema_reads_first_1000_characters :
  forall (lm : Models) (domain : string) (ps qs : list Page),
    Forall2 (fun p q => url p = url q
                        /\ option_map (take 1000) (text p)
                           = option_map (take 1000) (text q)) ps qs ->
    extract_schema lm domain ps = extract_schema lm domain qs.
Proof.
  intros lm domain ps qs H. unfold extract_schema.
  now rewrite (page_summaries_agree ps qs H).
Qed.

Lemma schema_reads_first_1000_characters_witness :
  text long_page_a <> text long_page_b
  /\ extract_schema stub_models "AI Writing Tools" [long_page_a]
     = extract_schema stub_models "AI Writing Tools" [long_page_b].
Proof.
  split; [vm_compute; discriminate|].
  apply (schema_reads_first_1000_characters stub_models "AI Writing Tools"
           [long_page_a] [long_page_b]).
  constructor; [|constructor]. split; [reflexivity|].
  vm_compute. reflexivity.
Defined.

End FileClaims.

(** ** How the crawls and runs compose *)
Section ComposeFacts.
Import Firecrawl.



End ComposeFacts.

Section ComposeClaims.
Import Firecrawl.

(** X18.  Crawling two lists of URLs one after the other, in landscape.py,
    gives the pages and the printed lines of the first crawl followed by
    those of the second: nothing is carried over from one URL to the
    next. *)
Theorem crawl_of_concatenation :
  forall (scrape_url : string -> ScrapeOutcome) (first second : list string),
    Landscape.crawl_pages_with_firecrawl scrape_url (first ++ second)
    = ((fst (Landscape.crawl_pages_with_firecrawl scrape_url first)
        ++ fst (Landscape.crawl_pages_with_firecrawl scrape_url second))%list,
       (snd (Landscape.crawl_pages_with_firecrawl scrape_url first)
        ++ snd (Landscape.crawl_pages_with_firecrawl scrape_url second))%list).
Proof.
  intros scrape_url first second.
  induction first as [|u first IH].
  - simpl app. now destruct (Landscape.crawl_pages_with_firecrawl _ second).
  - change ((u :: first) ++ second)%list with (u :: (first ++ second))%list.
    rewrite !crawl_cons, IH. cbn [fst snd]. now rewrite !app_assoc.
Qed.



End ComposeClaims.

(** ** landscape_schema.py: model calls and writes of a run *)
Section RunClaims.
Import Firecrawl LandscapeSchema.

(** X19.  A run of [build_landscape_schema_and_instances] on at least one
    page, all pages having text, creates the directory, then makes all its
    model calls -- one schema call, on the joined summaries of the pages,
    then one instance call per page in page order, a page whose URL
    occurred before included, each with the schema that was returned --
    and only then writes files, one after the other up to the first that
    cannot be opened.  The model calls are all made even when a write
    fails.  The run returns normally, with the schema, the instances and
    every page counted as processed, when all its files can be opened, and
    ends in the exception raised by the first [open] that fails
    otherwise. *)
Theorem run_calls_models_before_writing :
  forall (lm : Models) (scrape_url : string -> ScrapeOutcome)
         (open_file : string -> Result string)
         (domain : string) (urls : list string) (output_dir : string),
    let pages := crawl_pages_with_firecrawl scrape_url urls in
    let run := build_landscape_schema_and_instances lm scrape_url open_file
                 domain urls output_dir in
    pages <> [] ->
    Forall (fun p => text p <> None) pages ->
    exists summaries : list string,
      let content := join (NL ++ NL ++ "---PAGE---" ++ NL ++ NL) summaries in
      let s := schema_extractor lm domain content in
      let stored := fold_left (store_instance lm s domain) pages [] in
      let outputs := output_files output_dir domain s stored in
      page_summaries pages = Ok summaries
      /\ snd run
         = (MakeDirs output_dir
            :: SchemaExtraction domain content
            :: map (fun p => InstanceExtraction s domain (text p) (url p))
                 pages
            ++ written open_file outputs)%list
      /\ Forall (fun e => is_write e = true) (written open_file outputs)
      /\ (first_failure open_file outputs = None ->
          fst run = Ok (mkSummary s stored (List.length pages))
          /\ written open_file outputs
             = map (fun o => WriteFile (fst o) (snd o)) outputs)
      /\ (forall e : string,
            first_failure open_file outputs = Some e -> fst run = Raise e).
Proof.
  intros lm scrape_url open_file domain urls output_dir pages run Hne Ht.
  destruct (page_summaries_ok pages Ht) as [ss Hs].
  pose proof (build_run lm scrape_url open_file domain urls output_dir ss
                Hne Hs) as H.
  cbv zeta in H. fold pages run in H.
  exists ss. cbv zeta. rewrite H. cbn [fst snd].
  split; [exact Hs|]. split; [reflexivity|].
  split; [apply written_are_writes|]. split.
  - intros Ho. rewrite Ho. split; [reflexivity | now apply written_all].
  - now intros e ->.
Qed.

Lemma run_calls_models_before_writing_witness :
  let run := build_landscape_schema_and_instances stub_models stub_scrape
               (open_in_fresh "output") "AI/ML Tools"
               ["https://jasper.ai"; "https://jasper.ai"] "output" in
  snd run
  = [ MakeDirs "output";
      SchemaExtraction "AI/ML Tools"
        ("URL: https://jasper.ai" ++ NL ++ "Content: Some page text..."
         ++ NL ++ NL ++ "---PAGE---" ++ NL ++ NL
         ++ "URL: https://jasper.ai" ++ NL ++ "Content: Some page text...");
      InstanceExtraction "# schema" "AI/ML Tools" (Some "Some page text")
        "https://jasper.ai";
      InstanceExtraction "# schema" "AI/ML Tools" (Some "Some page text")
        "https://jasper.ai" ]
  /\ fst run = Raise "FileNotFoundError".
Proof.
  cbv zeta.
  destruct (run_calls_models_before_writing stub_models stub_scrape
              (open_in_fresh "output") "AI/ML Tools"
              ["https://jasper.ai"; "https://jasper.ai"] "output")
    as (summaries & Hs & Hrun & _ & _ & Hraise).
  - discriminate.
  - vm_compute. repeat constructor; discriminate.
  - vm_compute in Hs. injection Hs as <-.
    split; [rewrite Hrun; vm_compute; reflexivity|].
    apply Hraise. vm_compute. reflexivity.
Defined.

End RunClaims.

